(** * The front-end application of the GitHub + Jira integration

    A shallow embedding of [src/lib/frontend/app.js]: the Express
    application object is a stack of layers, built in the order of the
    [app.use] / [app.get] / [app.post] / [app.delete] calls of the source;
    a request walks that stack.  Handlers written in [app.js] itself are
    functions here; handlers the file [require]s are collaborators, taken
    as parameters of the walk. *)

From Stdlib Require Import Ascii NArith ZArith.
From stdpp Require Import base strings list gmap pretty.

Open Scope string_scope.
Open Scope list_scope.

(* ===================================================================== *)
(** ** Strings and paths *)
(* ===================================================================== *)

Module Path.

(** Express matches paths without regard to letter case (the
    [case sensitive routing] setting is off unless enabled). *)
Definition lower_ascii (c : ascii) : ascii :=
  let n := N_of_ascii c in
  if ((65 <=? n) && (n <=? 90))%N then ascii_of_N (n + 32) else c.

Fixpoint lower (s : string) : string :=
  match s with
  | EmptyString => EmptyString
  | String c r => String (lower_ascii c) (lower r)
  end.

(** The segments of a path, split at every slash:
    [segments "/a/b" = [""; "a"; "b"]]. *)
Fixpoint segments (s : string) : list string :=
  match s with
  | EmptyString => [EmptyString]
  | String c r =>
      if bool_decide (c = "/"%char) then EmptyString :: segments r
      else match segments r with
           | seg :: rest => String c seg :: rest
           | [] => [String c EmptyString]
           end
  end.

(** One trailing slash is optional (routing is not strict). *)
Definition drop_trailing_slash (l : list string) : list string :=
  match reverse l with
  | EmptyString :: (_ :: _) as front => reverse front
  | _ => l
  end.

Definition is_param (seg : string) : bool :=
  match seg with
  | String c _ => bool_decide (c = ":"%char)
  | EmptyString => false
  end.

(** A pattern segment [:name] takes any non-empty segment; any other
    pattern segment takes itself, letter case aside. *)
Definition seg_ok (pat x : string) : bool :=
  if is_param pat then negb (bool_decide (x = EmptyString))
  else bool_decide (lower pat = lower x).

Fixpoint seg_match (pat path : list string) : bool :=
  match pat, path with
  | [], [] => true
  | p :: ps, x :: xs => seg_ok p x && seg_match ps xs
  | _, _ => false
  end.

Fixpoint seg_prefix (pat path : list string) : bool :=
  match pat, path with
  | [], _ => true
  | p :: ps, x :: xs => bool_decide (lower p = lower x) && seg_prefix ps xs
  | _ :: _, [] => false
  end.

(** [app.METHOD(pattern, ...)]: the whole path has to match. *)
Definition route_matches (pattern path : string) : bool :=
  seg_match (drop_trailing_slash (segments pattern))
            (drop_trailing_slash (segments path)).

(** [app.use(mount, ...)]: the path has to start with the mount point,
    up to a segment boundary. *)
Definition mount_matches (mount path : string) : bool :=
  seg_prefix (drop_trailing_slash (segments mount)) (segments path).

(** The values the [:name] segments of a pattern take from a path that
    the pattern matches, in their order. *)
Fixpoint seg_values (pat path : list string) : list string :=
  match pat, path with
  | p :: ps, x :: xs => (if is_param p then [x] else []) ++ seg_values ps xs
  | _, _ => []
  end.

Definition route_params (pattern path : string) : list string :=
  seg_values (drop_trailing_slash (segments pattern))
             (drop_trailing_slash (segments path)).

Definition literal (pattern : string) : bool :=
  forallb (fun seg => negb (is_param seg)) (drop_trailing_slash (segments pattern)).

(** What a literal pattern pins down about the paths it accepts. *)
Definition key (path : string) : list string :=
  lower <$> drop_trailing_slash (segments path).

End Path.

Fixpoint occurs (c : ascii) (str : string) : bool :=
  match str with
  | EmptyString => false
  | String c' rest => bool_decide (c' = c) || occurs c rest
  end.

(* ===================================================================== *)
(** ** Data: process environment, requests, sessions, errors, responses *)
(* ===================================================================== *)

(** [process.env] as far as [app.js] reads it, and the flag behind
    [isMaintenanceMode()] of [../config/env]. *)
Record Env := {
  NODE_ENV : option string;
  EXCEPTION_DEBUG_MODE : option string;
  isMaintenanceMode : bool
}.

(** An environment variable in a condition: unset and empty are falsy. *)
Definition env_truthy (v : option string) : bool :=
  match v with
  | Some s => negb (bool_decide (s = EmptyString))
  | None => false
  end.

Definition node_env_is (env : Env) (name : string) : bool :=
  bool_decide (NODE_ENV env = Some name).

(** A value of the parsed query string: a string, or (for [a[]=..] and
    [a[k]=..] spellings) an array or an object. *)
Inductive QVal :=
| QStr (s : string)
| QArr (items : list string)
| QObj (fields : list (string * string)).

Global Instance QVal_eq_dec : EqDecision QVal.
Proof. solve_decision. Defined.

(** JavaScript truthiness: of these only the empty string is falsy. *)
Definition truthy (v : QVal) : bool :=
  match v with
  | QStr s => negb (bool_decide (s = EmptyString))
  | QArr _ | QObj _ => true
  end.

Record Request := {
  method : string;            (* upper case, as Node delivers it *)
  path : string;
  xdm_e : option QVal         (* req.query.xdm_e *)
}.

(** Modelled from the spec: the OAuth state of a session (section 3),
    kept by [./github-oauth], which is not among the sources. *)
Record OAuthGrant := {
  grant_valid : bool;
  grant_expired : bool
}.

(** [req.session]: the tracker host bound to the browser, and the OAuth
    state of the browser. *)
Record Session := {
  jiraHost : option QVal;
  oauthGrant : option OAuthGrant
}.

Definition set_jiraHost (v : QVal) (s : Session) : Session :=
  {| jiraHost := Some v; oauthGrant := oauthGrant s |}.

Record Err := {
  message : string;
  err_status : option Z
}.

Inductive Response :=
| Render (status : Z) (view : string) (title : string)
| Redirect (location : string)
| Reply (status : Z) (body : string).

(** What a middleware does with a request: call [next()], call
    [next(err)] (or throw, which Express turns into [next(err)]), send a
    response, or neither. *)
Inductive Signal :=
| Next
| NextErr (e : Err)
| Respond (r : Response)
| NoReply.

(** A function called with [(req, res)] only has no [next] to call. *)
Inductive Terminal :=
| TRespond (r : Response)
| TThrow (e : Err)
| TNoReply.

Definition signal_of (t : Terminal) : Signal :=
  match t with
  | TRespond r => Respond r
  | TThrow e => NextErr e
  | TNoReply => NoReply
  end.

Definition Middleware : Type := Request -> Session -> Signal * Session.
Definition ErrMiddleware : Type := Err -> Request -> Session -> Signal * Session.

(* ===================================================================== *)
(** ** Handlers *)
(* ===================================================================== *)

(** The middlewares and handlers [app.js] obtains from other modules. *)
Inductive External :=
| SentryRequestHandler
| BodyParserUrlencoded
| BodyParserJson
| CookieSession
| LogMiddleware
| Static (dir : string)
| GithubClientMiddleware
| Api
| GetJiraConnect
| CheckGithubAuth
| GetGitHubSetup
| PostGitHubSetup
| GetGitHubConfiguration
| PostGitHubConfiguration
| ListGitHubInstallations
| GetGitHubSubscriptions
| DeleteGitHubSubscription
| VerifyJiraMiddleware
| GetJiraConfiguration
| DeleteJiraConfiguration
| RetrySync
| JiraAuthenticate
| PostJiraDisable
| PostJiraEnable
| PostJiraInstall
| PostJiraUninstall
| OAuthLogin
| OAuthCallback.

(** Everything that can stand in a non-error layer of the stack. *)
Inductive HandlerId :=
| Ext (x : External)
| GetMaintenance        (* as the handler of the /maintenance route *)
| CsrfProtection
| JiraHostBinder        (* the function of lines 96-101 *)
| MaintenanceGate       (* the function of line 112 *)
| RootRedirect          (* the function of lines 136-139 *)
| Boom.                 (* the functions of lines 157-162 *)

(** The three functions registered with four parameters. *)
Inductive ErrHandlerId :=
| AddSentryContext
| SentryErrorHandler
| CatchErrors.

Inductive Actor :=
| Handler (h : HandlerId)
| ErrHandler (h : ErrHandlerId).

Global Instance External_eq_dec : EqDecision External.
Proof. solve_decision. Defined.
Global Instance HandlerId_eq_dec : EqDecision HandlerId.
Proof. solve_decision. Defined.
Global Instance ErrHandlerId_eq_dec : EqDecision ErrHandlerId.
Proof. solve_decision. Defined.
Global Instance Actor_eq_dec : EqDecision Actor.
Proof. solve_decision. Defined.

(** The behaviour of the collaborators: the required modules; the
    token check and the error of the [csurf] package; the GitHub client
    call of the root route, which yields the URL of the app or is
    rejected with an error; and three things the platform decides:
    whether the rejection of an [async] handler is handed to [next]
    (Sentry's request handler runs a request in a domain, which newer
    versions of Node hand an unhandled rejection to) or is lost, which
    texts [decodeURIComponent] accepts, and the error with which a
    response under a status that is no number is refused. *)
Record Collaborators := {
  external : External -> Middleware;
  getMaintenance : Request -> Session -> Terminal * Session;
  sentryErrorHandler : ErrMiddleware;
  csrfTokenValid : Request -> Session -> bool;
  invalidCsrfToken : Err;
  appExternalUrl : Request -> Session -> Err + string;
  rejectionsReachNext : bool;
  uriDecodes : string -> bool;
  invalidStatusCode : string -> Err
}.

Section Handlers.

Variable env : Env.
Variable co : Collaborators.

(** Lines 45-53: the options handed to [csrf(...)]. [None] is
    [undefined]. *)
Definition csrfOptions : option (list string) :=
  if node_env_is env "test"
  then Some ["GET"; "HEAD"; "OPTIONS"; "POST"; "PUT"]
  else None.

(** The methods [csurf] leaves alone when it is given no
    [ignoreMethods]. *)
Definition csurf_default_ignoreMethods : list string :=
  ["GET"; "HEAD"; "OPTIONS"].

Definition ignoreMethods : list string :=
  default csurf_default_ignoreMethods csrfOptions.

Definition csrf_exempt (m : string) : bool :=
  bool_decide (m ∈ ignoreMethods).

(** The [csurf] middleware: a request whose method is ignored goes on;
    any other goes on only with a token that verifies against the
    secret of its session, and is failed with the package's error
    otherwise. *)
Definition csrfProtection : Middleware :=
  fun req s =>
    if csrf_exempt (method req) then (Next, s)
    else if csrfTokenValid co req s then (Next, s)
    else (NextErr (invalidCsrfToken co), s).

(** Lines 96-101. *)
Definition jiraHostBinder : Middleware :=
  fun req s =>
    match xdm_e req with
    | Some v => if truthy v then (Next, set_jiraHost v s) else (Next, s)
    | None => (Next, s)
    end.

(** Line 112. *)
Definition maintenanceGate : Middleware :=
  fun req s =>
    if isMaintenanceMode env
    then let '(t, s') := getMaintenance co req s in (signal_of t, s')
    else (Next, s).

(** Lines 136-139: an [async] handler without a [catch]; when the
    awaited call is rejected nothing in the handler replies, and the
    rejection is handed to [next] or lost, as the platform has it. *)
Definition rootRedirect : Middleware :=
  fun req s =>
    match appExternalUrl co req s with
    | inr url => (Respond (Redirect url), s)
    | inl e => (if rejectionsReachNext co then NextErr e else NoReply, s)
    end.

(** Lines 157-162: calling a method strings do not have throws. *)
Definition dquote : string := String (ascii_of_N 34) EmptyString.

Definition boom_error : Err :=
  {| message := dquote +:+ "frontend boom" +:+ dquote
                +:+ ".nopenope is not a function";
     err_status := None |}.

Definition boom : Middleware := fun _ s => (NextErr boom_error, s).

Definition run_handler (h : HandlerId) : Middleware :=
  match h with
  | Ext x => external co x
  | GetMaintenance =>
      fun req s => let '(t, s') := getMaintenance co req s in (signal_of t, s')
  | CsrfProtection => csrfProtection
  | JiraHostBinder => jiraHostBinder
  | MaintenanceGate => maintenanceGate
  | RootRedirect => rootRedirect
  | Boom => boom
  end.

(** Lines 141-154: the context goes to the reporting side channel, the
    error goes on unchanged. *)
Definition addSentryContext : ErrMiddleware :=
  fun err _ s => (NextErr err, s).

(** Lines 174-178: the own keys of the object literal. *)
Definition errorCodes : gmap string Z :=
  {[ "Unauthorized" := 401%Z; "Forbidden" := 403%Z; "Not Found" := 404%Z ]}.

(** The names an object literal inherits from [Object.prototype].  An
    index [errorCodes[key]] finds them as well; what it finds there (a
    function, and the prototype itself under [__proto__]) is truthy and
    no number. *)
Definition object_prototype_names : list string :=
  [ "constructor"; "__defineGetter__"; "__defineSetter__"; "hasOwnProperty";
    "__lookupGetter__"; "__lookupSetter__"; "isPrototypeOf";
    "propertyIsEnumerable"; "toString"; "valueOf"; "__proto__";
    "toLocaleString" ].

(** What an index into the literal yields. *)
Inductive Member :=
| OwnCode (code : Z)
| Inherited (name : string).

Definition errorCodes_at (key : string) : option Member :=
  match errorCodes !! key with
  | Some code => Some (OwnCode code)
  | None =>
      if bool_decide (key ∈ object_prototype_names) then Some (Inherited key) else None
  end.

(** What [res.status] is called with. *)
Inductive StatusArg :=
| StatusCode (code : Z)
| NotANumber (name : string).

(** [a || b] for a number that may be missing. *)
Definition js_or (a : option Z) (b : Z) : Z :=
  match a with
  | Some c => if (c =? 0)%Z then b else c
  | None => b
  end.

(** Line 180: [errorCodes[err.message] || 400]. *)
Definition error_status (err : Err) : StatusArg :=
  match errorCodes_at (message err) with
  | Some (OwnCode code) => StatusCode (js_or (Some code) 400%Z)
  | Some (Inherited name) => NotANumber name
  | None => StatusCode 400%Z
  end.

Definition error_view : string := "github-error.hbs".
Definition error_title : string := "GitHub + Jira integration".

(** Lines 169-183.  Under a status that is a number the page is
    rendered and sent.  Under anything else the sending of the rendered
    page is refused, and the callback of [res.render] passes that failure
    on. *)
Definition catchErrors : ErrMiddleware :=
  fun err _ s =>
    if node_env_is env "development" then (NextErr err, s)
    else match error_status err with
         | StatusCode code => (Respond (Render code error_view error_title), s)
         | NotANumber name => (NextErr (invalidStatusCode co name), s)
         end.

Definition run_err_handler (h : ErrHandlerId) : ErrMiddleware :=
  match h with
  | AddSentryContext => addSentryContext
  | SentryErrorHandler => sentryErrorHandler co
  | CatchErrors => catchErrors
  end.

End Handlers.

(* ===================================================================== *)
(** ** The stack of the application *)
(* ===================================================================== *)

Inductive Layer :=
| Use (mount : option string) (h : HandlerId)            (* app.use([mount,] fn) *)
| Route (verb : string) (pattern : string) (chain : list HandlerId)
                                                         (* app.get / post / delete *)
| UseErr (h : ErrHandlerId).                             (* app.use(fn), fn of four parameters *)

Global Instance Layer_eq_dec : EqDecision Layer.
Proof. solve_decision. Defined.

(** Lines 62-109: what is registered ahead of the maintenance gate. *)
Definition before_gate : list Layer :=
  [ Use None (Ext SentryRequestHandler);
    Use None (Ext BodyParserUrlencoded);
    Use None (Ext BodyParserJson);
    Use None (Ext CookieSession);
    Use None (Ext LogMiddleware);
    Use (Some "/public") (Ext (Static "static"));
    Use (Some "/public/css-reset") (Ext (Static "node_modules/@atlaskit/css-reset/dist"));
    Use (Some "/public/primer") (Ext (Static "node_modules/primer/build"));
    Use (Some "/public/atlassian-ui-kit")
        (Ext (Static "node_modules/@atlaskit/reduced-ui-pack/dist"));
    Use None JiraHostBinder;
    Use None (Ext GithubClientMiddleware);
    Use (Some "/api") (Ext Api);
    Route "GET" "/jira/atlassian-connect.json" [Ext GetJiraConnect] ].

(** Line 112. *)
Definition gate : Layer := Use None MaintenanceGate.

(** Lines 113-139. *)
Definition routes : list Layer :=
  [ Route "GET" "/maintenance" [CsrfProtection; GetMaintenance];
    Route "GET" "/github/setup"
          [CsrfProtection; Ext CheckGithubAuth; Ext GetGitHubSetup];
    Route "POST" "/github/setup" [CsrfProtection; Ext PostGitHubSetup];
    Route "GET" "/github/configuration"
          [CsrfProtection; Ext CheckGithubAuth; Ext GetGitHubConfiguration];
    Route "POST" "/github/configuration" [CsrfProtection; Ext PostGitHubConfiguration];
    Route "GET" "/github/installations"
          [CsrfProtection; Ext CheckGithubAuth; Ext ListGitHubInstallations];
    Route "GET" "/github/subscriptions/:installationId"
          [CsrfProtection; Ext GetGitHubSubscriptions];
    Route "POST" "/github/subscription" [CsrfProtection; Ext DeleteGitHubSubscription];
    Route "GET" "/jira/configuration"
          [CsrfProtection; Ext VerifyJiraMiddleware; Ext GetJiraConfiguration];
    Route "DELETE" "/jira/configuration"
          [Ext VerifyJiraMiddleware; Ext DeleteJiraConfiguration];
    Route "POST" "/jira/sync" [Ext VerifyJiraMiddleware; Ext RetrySync];
    Route "POST" "/jira/events/disabled" [Ext JiraAuthenticate; Ext PostJiraDisable];
    Route "POST" "/jira/events/enabled" [Ext JiraAuthenticate; Ext PostJiraEnable];
    Route "POST" "/jira/events/installed" [Ext PostJiraInstall];
    Route "POST" "/jira/events/uninstalled" [Ext JiraAuthenticate; Ext PostJiraUninstall];
    Route "GET" "/" [RootRedirect] ].

(** Line 156. *)
Definition boom_enabled (env : Env) : bool :=
  env_truthy (EXCEPTION_DEBUG_MODE env) || node_env_is env "development".

(** Lines 156-163. *)
Definition boom_routes (on : bool) : list Layer :=
  if on then [Route "GET" "/boom" [Boom]; Route "POST" "/boom" [Boom]] else [].

(** Lines 165-167. *)
Definition reporters : list Layer :=
  [UseErr AddSentryContext; UseErr SentryErrorHandler].

(** Lines 10-16: the two URIs handed to [./github-oauth]. *)
Definition loginURI : string := "/github/login".
Definition callbackURI : string := "/github/callback".

(** Modelled from the spec: [oauth.addRoutes(app)] (line 185) of
    [./github-oauth], which is not among the sources.  Section 6: a login
    entry point and a callback entry point. *)
Definition oauth_routes : list Layer :=
  [ Route "GET" loginURI [Ext OAuthLogin];
    Route "GET" callbackURI [Ext OAuthCallback] ].

(** Lines 113-186: what is registered behind the gate. *)
Definition behind_gate (boom_on : bool) : list Layer :=
  routes ++ boom_routes boom_on ++ reporters ++ oauth_routes ++ [UseErr CatchErrors].

Definition app_layers (boom_on : bool) : list Layer :=
  before_gate ++ gate :: behind_gate boom_on.

Definition app_stack (env : Env) : list Layer := app_layers (boom_enabled env).

(* ===================================================================== *)
(** ** Walking the stack *)
(* ===================================================================== *)

Inductive Mode :=
| Normal
| Failing (e : Err).

(** How a request ends.  [FellThrough] and [Uncaught] are the two cases
    Express answers by itself: nothing in the stack replied, or an error
    left the stack (the raw error is then what the client is shown). *)
Inductive Final :=
| Answered (by_ : Actor) (r : Response)
| Unanswered (by_ : Actor)
| FellThrough
| Uncaught (e : Err).

Inductive Status :=
| Going (m : Mode)
| Done (f : Final).

Record Event := { ev_actor : Actor; ev_signal : Signal }.

Record Run := {
  status : Status;
  trace : list Event;
  session : Session
}.

Definition start (s : Session) : Run :=
  {| status := Going Normal; trace := []; session := s |}.

Definition after (a : Actor) (sg : Signal) : Status :=
  match sg with
  | Next => Going Normal
  | NextErr e => Going (Failing e)
  | Respond r => Done (Answered a r)
  | NoReply => Done (Unanswered a)
  end.

Definition record (a : Actor) (out : Signal * Session) (r : Run) : Run :=
  {| status := after a out.1;
     trace := trace r ++ [{| ev_actor := a; ev_signal := out.1 |}];
     session := out.2 |}.

(** The error Express raises when a value of a [:name] segment is not
    accepted by [decodeURIComponent]. *)
Definition squote : string := String (ascii_of_N 39) EmptyString.

Definition decode_error (val : string) : Err :=
  {| message := "Failed to decode param " +:+ squote +:+ val +:+ squote;
     err_status := Some 400%Z |}.

(** [app.get] routes also serve [HEAD] requests. *)
Definition verb_matches (verb m : string) : bool :=
  bool_decide (verb = m) || (bool_decide (verb = "GET") && bool_decide (m = "HEAD")).

Definition layer_matches (l : Layer) (req : Request) : bool :=
  match l with
  | Use None _ => true
  | Use (Some mount) _ => Path.mount_matches mount (path req)
  | Route verb pattern _ => verb_matches verb (method req) && Path.route_matches pattern (path req)
  | UseErr _ => true
  end.

Section Walk.

Variable env : Env.
Variable co : Collaborators.
Variable req : Request.

Definition invoke (h : HandlerId) (r : Run) : Run :=
  match status r with
  | Going Normal => record (Handler h) (run_handler env co h req (session r)) r
  | _ => r
  end.

(** The handlers of one route, in turn, as long as each calls [next()]. *)
Definition run_chain (chain : list HandlerId) (r : Run) : Run :=
  fold_left (fun r h => invoke h r) chain r.

(** A route whose pattern takes the path decodes the values of its
    [:name] segments before it looks at the method; a value that does not
    decode is an error raised by the router, with no handler run. *)
Definition decode_failure (l : Layer) : option Err :=
  match l with
  | Route _ pattern _ =>
      if Path.route_matches pattern (path req)
      then decode_error <$>
             find (λ val, negb (uriDecodes co val)) (Path.route_params pattern (path req))
      else None
  | _ => None
  end.

Definition raise (e : Err) (r : Run) : Run :=
  {| status := Going (Failing e); trace := trace r; session := session r |}.

Definition step (r : Run) (l : Layer) : Run :=
  match status r with
  | Done _ => r
  | Going Normal =>
      match decode_failure l with
      | Some e => raise e r
      | None =>
          if layer_matches l req then
            match l with
            | Use _ h => invoke h r
            | Route _ _ chain => run_chain chain r
            | UseErr _ => r
            end
          else r
      end
  | Going (Failing e) =>
      match l with
      | UseErr h => record (ErrHandler h) (run_err_handler env co h e req (session r)) r
      | _ => r
      end
  end.

Definition walk (ls : list Layer) (r : Run) : Run := fold_left step ls r.

Definition finish (r : Run) : Final :=
  match status r with
  | Done f => f
  | Going Normal => FellThrough
  | Going (Failing e) => Uncaught e
  end.

End Walk.

(** One request against the application. *)
Definition dispatch (env : Env) (co : Collaborators) (req : Request) (s : Session) : Run :=
  walk env co req (app_stack env) (start s).

Definition outcome (env : Env) (co : Collaborators) (req : Request) (s : Session) : Final :=
  finish (dispatch env co req s).

Definition actors (r : Run) : list Actor := ev_actor <$> trace r.

Definition ran (h : HandlerId) (r : Run) : Prop := Handler h ∈ actors r.

(* ===================================================================== *)
(** ** Properties of traces *)
(* ===================================================================== *)

Definition layer_handlers (l : Layer) : list HandlerId :=
  match l with
  | Use _ h => [h]
  | Route _ _ chain => chain
  | UseErr _ => []
  end.

Definition handlers_of (ls : list Layer) : list HandlerId :=
  ls ≫= layer_handlers.

Section TraceProps.

Variable env : Env.
Variable co : Collaborators.
Variable req : Request.

(** Where the events of a walk come from. *)
Definition from_layers (ls : list Layer) (a : Actor) : Prop :=
  match a with
  | Handler h => ∃ l, l ∈ ls ∧ h ∈ layer_handlers l ∧ layer_matches l req = true
  | ErrHandler h => UseErr h ∈ ls
  end.

(** What a recorded signal is. *)
Definition sound (ev : Event) : Prop :=
  match ev_actor ev with
  | Handler h => ∃ s, ev_signal ev = (run_handler env co h req s).1
  | ErrHandler h => ∃ e s, ev_signal ev = (run_err_handler env co h e req s).1
  end.

End TraceProps.

(** In a trace, [h2] runs only directly after [h1] has called [next()]. *)
Definition guarded (h1 h2 : HandlerId) (t : list Event) : Prop :=
  ∀ i sg, t !! i = Some {| ev_actor := Handler h2; ev_signal := sg |} →
    ∃ j, i = S j ∧ t !! j = Some {| ev_actor := Handler h1; ev_signal := Next |}.

(** In a chain, [h2] stands only directly behind [h1]. *)
Fixpoint chain_guard (h1 h2 : HandlerId) (prev : option HandlerId)
    (chain : list HandlerId) : bool :=
  match chain with
  | [] => true
  | x :: rest =>
      (if decide (x = h2) then bool_decide (prev = Some h1) else true)
      && chain_guard h1 h2 (Some x) rest
  end.

Definition layer_guard (h1 h2 : HandlerId) (l : Layer) : bool :=
  chain_guard h1 h2 None (layer_handlers l).

Definition fresh_from (prev : option HandlerId) (r : Run) : Prop :=
  status r = Going Normal → ∀ h, prev = Some h →
    last (trace r) = Some {| ev_actor := Handler h; ev_signal := Next |}.

(* ===================================================================== *)
(** ** Vocabulary of the statements *)
(* ===================================================================== *)

(** The kinds of error the central handler tells apart, and the message
    each is recognised by. *)
Inductive ErrorKind :=
| Unauthorized
| Forbidden
| NotFound
| Unknown.

Definition kind_of (e : Err) : ErrorKind :=
  if decide (message e = "Unauthorized") then Unauthorized
  else if decide (message e = "Forbidden") then Forbidden
  else if decide (message e = "Not Found") then NotFound
  else Unknown.

Definition kind_status (k : ErrorKind) : Z :=
  match k with
  | Unauthorized => 401
  | Forbidden => 403
  | NotFound => 404
  | Unknown => 400
  end.

Definition error_page (code : Z) : Response := Render code error_view error_title.

(** The central handler hands the error on instead of answering. *)
Definition bypasses (env : Env) : Prop :=
  ∀ co e req s, catchErrors env co e req s = (NextErr e, s).

(** Everything registered ahead of the central handler (lines 62-185). *)
Definition app_front (boom_on : bool) : list Layer :=
  before_gate ++ gate :: routes ++ boom_routes boom_on ++ reporters ++ oauth_routes.

(** Sentry's error handler reports the error and passes it on. *)
Definition forwards_errors (co : Collaborators) : Prop :=
  ∀ e req s, (sentryErrorHandler co e req s).1 = NextErr e.

(** The collaborators do not write [req.session.jiraHost]. *)
Definition keep_host (co : Collaborators) : Prop :=
  (∀ x req s, jiraHost (external co x req s).2 = jiraHost s) ∧
  (∀ req s, jiraHost (getMaintenance co req s).2 = jiraHost s) ∧
  (∀ e req s, jiraHost (sentryErrorHandler co e req s).2 = jiraHost s).



(** The host bound to a session after a request, given the one bound
    before: replaced by a truthy parameter, kept otherwise. *)
Definition host_after (req : Request) (before : option QVal) : option QVal :=
  match xdm_e req with
  | Some v => if truthy v then Some v else before
  | None => before
  end.


(** The layers of a stack that can run a given handler. *)
Definition layers_with (h : HandlerId) (ls : list Layer) : list Layer :=
  filter (λ l, h ∈ layer_handlers l) ls.

(** The handlers of the routes behind the maintenance gate. *)
Definition gated_handlers (boom_on : bool) : list HandlerId :=
  handlers_of (behind_gate boom_on).

(** The routes whose handler changes state for a tracker tenant
    (lines 126-127). *)
Definition tenant_mutations : list (string * string) :=
  [("DELETE", "/jira/configuration"); ("POST", "/jira/sync")].

Definition targets (route : string * string) (req : Request) : Prop :=
  method req = route.1 ∧ Path.route_matches route.2 (path req) = true.

(** The handlers of those two routes. *)
Definition tenant_mutation_handlers : list External :=
  [DeleteJiraConfiguration; RetrySync].

(** The handlers of the state-changing routes that stand behind the
    anti-forgery guard (lines 116, 119, 123). *)
Definition forgery_guarded : list External :=
  [PostGitHubSetup; PostGitHubConfiguration; DeleteGitHubSubscription].

(** The lifecycle events that carry a proof of the shared secret, each
    with its handler (lines 131, 132, 134). *)
Definition signed_events : list External :=
  [PostJiraDisable; PostJiraEnable; PostJiraUninstall].

(* ===================================================================== *)
(** ** The verifiers of the trust gate *)
(* ===================================================================== *)

(** Modelled from the spec: the trust domains of section 4.3 and the
    tenant records of section 3; the modules that implement them are not
    among the sources. *)
Inductive TrustDomain :=
| GitHubSession
| TrackerWebhook
| TrackerSessionBound.

Variant InstallationState := Installed | Enabled | Disabled | Uninstalled.

Record TenantRecord := {
  sharedSecret : string;
  installationState : InstallationState
}.

(** Modelled from the spec: what a lifecycle webhook is checked against
    (section 4.4): the records on file, the host named in the payload and
    the check of the proof a request carries against a secret. *)
Record Tenants := {
  records : gmap string TenantRecord;
  payload_host : Request -> string;
  proves_secret : string -> Request -> bool
}.

(** Modelled from the spec: a valid, non-expired OAuth grant
    (section 4.3). *)
Definition has_live_grant (s : Session) : bool :=
  match oauthGrant s with
  | Some g => grant_valid g && negb (grant_expired g)
  | None => false
  end.

Definition classified (k : string) : Err := {| message := k; err_status := None |}.

(** Modelled from the spec: [oauth.checkGithubAuth] of [./github-oauth],
    which is not among the sources.  Section 4.3: a session without a
    valid, non-expired OAuth grant is redirected to the login entry point;
    any other request goes on. *)
Definition checkGithubAuth : Middleware :=
  fun _ s =>
    if has_live_grant s then (Next, s) else (Respond (Redirect loginURI), s).

(** Modelled from the spec: [../jira/authenticate], which is not among
    the sources.  Section 4.4: no record for the host of the payload fails
    with NotFound, a proof that does not verify against the secret on file
    fails with Unauthorized. *)
Definition jiraAuthenticate (t : Tenants) : Middleware :=
  fun req s =>
    match records t !! payload_host t req with
    | None => (NextErr (classified "Not Found"), s)
    | Some rec =>
        if proves_secret t (sharedSecret rec) req then (Next, s)
        else (NextErr (classified "Unauthorized"), s)
    end.

(** Modelled from the spec: [./verify-jira-middleware], which is not
    among the sources.  Section 4.3: a session with no tenant host bound
    fails with Unauthorized. *)
Definition verifyJiraMiddleware : Middleware :=
  fun _ s =>
    match jiraHost s with
    | Some _ => (Next, s)
    | None => (NextErr (classified "Unauthorized"), s)
    end.

Definition verifier (t : Tenants) (d : TrustDomain) : Middleware :=
  match d with
  | GitHubSession => checkGithubAuth
  | TrackerWebhook => jiraAuthenticate t
  | TrackerSessionBound => verifyJiraMiddleware
  end.

Definition guard_of (d : TrustDomain) : External :=
  match d with
  | GitHubSession => CheckGithubAuth
  | TrackerWebhook => JiraAuthenticate
  | TrackerSessionBound => VerifyJiraMiddleware
  end.

(** The collaborators behave as the verifiers above. *)
Definition as_specified (t : Tenants) (co : Collaborators) : Prop :=
  ∀ d req s, external co (guard_of d) req s = verifier t d req s.

Definition is_redirect (sg : Signal) : bool :=
  match sg with
  | Respond (Redirect _) => true
  | _ => false
  end.

Definition is_error (sg : Signal) : bool :=
  match sg with
  | NextErr _ => true
  | _ => false
  end.

(* ===================================================================== *)
(** ** Sample collaborators and requests *)
(* ===================================================================== *)

Module Sample.

(** Middlewares call [next()]; the handlers at the end of a chain reply. *)
Definition replies (x : External) : bool :=
  match x with
  | Api | GetJiraConnect | GetGitHubSetup | PostGitHubSetup
  | GetGitHubConfiguration | PostGitHubConfiguration | ListGitHubInstallations
  | GetGitHubSubscriptions | DeleteGitHubSubscription | GetJiraConfiguration
  | DeleteJiraConfiguration | RetrySync | PostJiraDisable | PostJiraEnable
  | PostJiraInstall | PostJiraUninstall | OAuthLogin | OAuthCallback => true
  | _ => false
  end.

Definition maintenance_page : Response := Render 503 "maintenance.hbs" "Maintenance".

Definition csrf_error : Err :=
  {| message := "invalid csrf token"; err_status := Some 403%Z |}.

Definition unauthorized : Err :=
  {| message := "Unauthorized"; err_status := None |}.

Definition co_pass : Collaborators :=
  {| external := fun x _ s =>
       if replies x then (Respond (Reply 200 "ok"), s) else (Next, s);
     getMaintenance := fun _ s => (TRespond maintenance_page, s);
     sentryErrorHandler := fun e _ s => (NextErr e, s);
     csrfTokenValid := fun _ _ => false;
     invalidCsrfToken := csrf_error;
     appExternalUrl := fun _ _ => inr "https://github.com/apps/jira";
     rejectionsReachNext := true;
     uriDecodes := fun val => negb (occurs "%" val);
     invalidStatusCode := fun name =>
       {| message := "Invalid status code: " +:+ name; err_status := None |} |}.

(** As [c], with the handlers of the required modules replaced. *)
Definition with_external (f : External -> Middleware) (c : Collaborators) : Collaborators :=
  {| external := f;
     getMaintenance := getMaintenance c;
     sentryErrorHandler := sentryErrorHandler c;
     csrfTokenValid := csrfTokenValid c;
     invalidCsrfToken := invalidCsrfToken c;
     appExternalUrl := appExternalUrl c;
     rejectionsReachNext := rejectionsReachNext c;
     uriDecodes := uriDecodes c;
     invalidStatusCode := invalidStatusCode c |}.

(** As [co_pass], with a tracker-token verifier that rejects. *)
Definition co_rejecting : Collaborators :=
  with_external (fun x req s =>
                   match x with
                   | VerifyJiraMiddleware => (NextErr unauthorized, s)
                   | _ => external co_pass x req s
                   end) co_pass.

(** One tenant on file; no request proves its secret. *)
Definition tenants : Tenants :=
  {| records := {[ "acme.example" :=
                     {| sharedSecret := "s3cr3t"; installationState := Installed |} ]};
     payload_host := fun _ => "acme.example";
     proves_secret := fun _ _ => false |}.

(** As [co_pass], with the three verifiers as the spec has them. *)
Definition co_specified : Collaborators :=
  with_external (fun x req s =>
                   match x with
                   | CheckGithubAuth => checkGithubAuth req s
                   | JiraAuthenticate => jiraAuthenticate tenants req s
                   | VerifyJiraMiddleware => verifyJiraMiddleware req s
                   | _ => external co_pass x req s
                   end) co_pass.

Definition env_default : Env :=
  {| NODE_ENV := None; EXCEPTION_DEBUG_MODE := None; isMaintenanceMode := false |}.

Definition env_named (name : string) : Env :=
  {| NODE_ENV := Some name; EXCEPTION_DEBUG_MODE := None; isMaintenanceMode := false |}.

Definition env_maintenance : Env :=
  {| NODE_ENV := None; EXCEPTION_DEBUG_MODE := None; isMaintenanceMode := true |}.

Definition request (m p : string) : Request :=
  {| method := m; path := p; xdm_e := None |}.

Definition request_for (m p : string) (host : QVal) : Request :=
  {| method := m; path := p; xdm_e := Some host |}.

Definition no_session : Session := {| jiraHost := None; oauthGrant := None |}.

Definition bound_to (host : string) : Session :=
  {| jiraHost := Some (QStr host); oauthGrant := None |}.

End Sample.

(* ===================================================================== *)
(** ** The rest of [app.js] *)
(* ===================================================================== *)

(** Line 86, the helper [replaceSpaceWithHyphen]: [str.replace(/ /g, '-')].
    A string is its UTF-8 bytes; the byte of the space stands for the
    space only. *)
Fixpoint replaceSpaceWithHyphen (str : string) : string :=
  match str with
  | EmptyString => EmptyString
  | String c rest =>
      String (if bool_decide (c = " "%char) then "-"%char else c)
             (replaceSpaceWithHyphen rest)
  end.

(** What a helper hands to the template: a number or a text. *)
Inductive Shown :=
| ShownNumber (n : N)
| ShownText (t : string).

(** Lines 87-88, the helper [ifAllReposSynced], on repository counts. *)
Definition ifAllReposSynced (numberOfSyncedRepos totalNumberOfRepos : N) : Shown :=
  if decide (numberOfSyncedRepos = totalNumberOfRepos)
  then ShownNumber totalNumberOfRepos
  else ShownText (pretty numberOfSyncedRepos +:+ " / " +:+ pretty totalNumberOfRepos).

(** The counts a JavaScript number holds exactly. *)
Definition safe_count (n : N) : Prop := (n < 2 ^ 53)%N.




(** Lines 62-163: the layers registered ahead of the error reporters. *)
Definition normal_layers (boom_on : bool) : list Layer :=
  before_gate ++ gate :: routes ++ boom_routes boom_on.

(** Lines 165-186. *)
Definition error_tail : list Layer :=
  reporters ++ oauth_routes ++ [UseErr CatchErrors].

Definition is_normal (l : Layer) : bool :=
  match l with
  | UseErr _ => false
  | _ => true
  end.

(** In a trace, [h2] runs only after [h1] has called [next()]. *)
Definition precedes (h1 h2 : HandlerId) (t : list Event) : Prop :=
  ∀ i sg, t !! i = Some {| ev_actor := Handler h2; ev_signal := sg |} →
    ∃ j, j < i ∧ t !! j = Some {| ev_actor := Handler h1; ev_signal := Next |}.

(** The middlewares every request passes in normal flow, in the order
    of their registration (lines 62-112). *)
Definition global_middlewares : list HandlerId :=
  [ Ext SentryRequestHandler; Ext BodyParserUrlencoded; Ext BodyParserJson;
    Ext CookieSession; Ext LogMiddleware; JiraHostBinder;
    Ext GithubClientMiddleware; MaintenanceGate ].

(** The directories of the vendor assets (lines 91-93). *)
Definition vendor_assets : list string :=
  [ "node_modules/@atlaskit/css-reset/dist";
    "node_modules/primer/build";
    "node_modules/@atlaskit/reduced-ui-pack/dist" ].

(** Could two routes take the same request?  Verbs: equal, or both
    served for [HEAD].  Patterns: as long, and equal wherever both are
    literal. *)
Definition verbs_overlap (v1 v2 : string) : bool :=
  bool_decide (v1 = v2)
  || (bool_decide (v1 ∈ ["GET"; "HEAD"]) && bool_decide (v2 ∈ ["GET"; "HEAD"])).

Fixpoint segs_overlap (p1 p2 : list string) : bool :=
  match p1, p2 with
  | [], [] => true
  | a :: p1', b :: p2' =>
      (Path.is_param a || Path.is_param b || bool_decide (Path.lower a = Path.lower b))
      && segs_overlap p1' p2'
  | _, _ => false
  end.

Definition layers_overlap (l1 l2 : Layer) : bool :=
  match l1, l2 with
  | Route v1 p1 _, Route v2 p2 _ =>
      verbs_overlap v1 v2
      && segs_overlap (Path.drop_trailing_slash (Path.segments p1))
                      (Path.drop_trailing_slash (Path.segments p2))
  | _, _ => false
  end.

Definition is_route (l : Layer) : bool :=
  match l with
  | Route _ _ _ => true
  | _ => false
  end.

(** Line 85, the helper [toLowerCase]: [str.toLowerCase()], on text of
    the ASCII range, where lower-casing touches the 26 letters only. *)
Definition toLowerCase (str : string) : string := Path.lower str.

Fixpoint ascii_text (str : string) : bool :=
  match str with
  | EmptyString => true
  | String c rest => (N_of_ascii c <? 128)%N && ascii_text rest
  end.

Definition is_upper (c : ascii) : bool :=
  ((65 <=? N_of_ascii c) && (N_of_ascii c <=? 90))%N.

(** The three checks that stand before route handlers. *)
Definition trust_guards : list HandlerId :=
  [Ext CheckGithubAuth; Ext VerifyJiraMiddleware; Ext JiraAuthenticate].

(** The checks of browser requests. *)
Definition browser_guards : list HandlerId :=
  [CsrfProtection; Ext CheckGithubAuth; Ext VerifyJiraMiddleware].

(** The paths of the four lifecycle events (lines 131-134). *)
Definition event_paths : list string :=
  [ "/jira/events/disabled"; "/jira/events/enabled";
    "/jira/events/installed"; "/jira/events/uninstalled" ].

Definition route_layers (ls : list Layer) : list Layer :=
  filter (λ l, is_route l = true) ls.

(** The stack, whatever routes [oauth.addRoutes(app)] registers at
    line 185. *)
Definition app_layers_with (added : list Layer) (boom_on : bool) : list Layer :=
  normal_layers boom_on ++ reporters ++ added ++ [UseErr CatchErrors].

(** The two error handlers that report to Sentry (lines 165-167). *)
Definition reporting : list Actor :=
  [ErrHandler AddSentryContext; ErrHandler SentryErrorHandler].

(** Sample collaborators: the tracker-token verifier fails with an
    error whose message is the name of a member of every object. *)
Definition constructor_error : Err := {| message := "constructor"; err_status := None |}.

Definition co_constructor : Collaborators :=
  Sample.with_external (fun x req s =>
                          match x with
                          | VerifyJiraMiddleware => (NextErr constructor_error, s)
                          | _ => external Sample.co_pass x req s
                          end) Sample.co_pass.

(** Line 122, the one route with a [:name] segment, and what is
    registered ahead of it and between it and the central handler. *)
Definition subscriptions_pattern : string := "/github/subscriptions/:installationId".

Definition subscriptions_route : Layer :=
  Route "GET" subscriptions_pattern [CsrfProtection; Ext GetGitHubSubscriptions].

Definition ahead_of_subscriptions : list Layer :=
  before_gate ++ gate :: take 6 routes.

Definition behind_subscriptions (boom_on : bool) : list Layer :=
  drop 7 routes ++ boom_routes boom_on ++ reporters ++ oauth_routes.

(** Sample collaborators: the anti-forgery token that requests carry
    verifies against the secret of one session, that of the browser bound
    to the host [other.atlassian.net], and of no other. *)
Definition co_other_session : Collaborators :=
  {| external := external Sample.co_pass;
     getMaintenance := getMaintenance Sample.co_pass;
     sentryErrorHandler := sentryErrorHandler Sample.co_pass;
     csrfTokenValid := fun _ s =>
       bool_decide (jiraHost s = Some (QStr "https://other.atlassian.net"));
     invalidCsrfToken := invalidCsrfToken Sample.co_pass;
     appExternalUrl := appExternalUrl Sample.co_pass;
     rejectionsReachNext := rejectionsReachNext Sample.co_pass;
     uriDecodes := uriDecodes Sample.co_pass;
     invalidStatusCode := invalidStatusCode Sample.co_pass |}.

(** Sample collaborators: the login entry point of the OAuth routes
    fails. *)
Definition co_login_failing : Collaborators :=
  Sample.with_external (fun x req s =>
                          match x with
                          | OAuthLogin => (NextErr Sample.unauthorized, s)
                          | _ => external Sample.co_pass x req s
                          end) Sample.co_pass.

(** No two layers of a list could take the same request as routes. *)
Fixpoint apart (ls : list Layer) : bool :=
  match ls with
  | [] => true
  | l :: rest =>
      forallb (λ l', negb (layers_overlap l l') && negb (layers_overlap l' l)) rest
      && apart rest
  end.

(** The paths of the state-changing routes behind the anti-forgery
    guard (lines 116, 119, 123). *)
Definition forgery_guarded_paths : list string :=
  ["/github/setup"; "/github/configuration"; "/github/subscription"].

(* ===================================================================== *)
(** ** Facts about paths *)
(* ===================================================================== *)

Module PathFacts.

Import Path.

Lemma seg_match_literal pat x :
  forallb (fun seg => negb (is_param seg)) pat = true →
  seg_match pat x = true → lower <$> x = lower <$> pat.
Proof.
  revert x. induction pat as [|p ps IH]; intros [|x xs]; cbn; try done.
  intros [Hp Hps]%andb_prop [Hx Hxs]%andb_prop.
  unfold seg_ok in Hx. destruct (is_param p); [done|].
  apply bool_decide_eq_true in Hx. rewrite Hx. f_equal. by apply IH.
Qed.

(** Two literal patterns that differ (slash and case aside) never
    accept the same path. *)
Lemma route_matches_key pattern p :
  literal pattern = true → route_matches pattern p = true → key p = key pattern.
Proof. intros Hl Hm. by apply seg_match_literal. Qed.

Lemma seg_values_literal pat x :
  forallb (fun seg => negb (is_param seg)) pat = true → seg_values pat x = [].
Proof.
  revert x. induction pat as [|p ps IH]; intros [|x xs]; cbn; try done.
  intros [Hp Hps]%andb_prop. apply negb_true_iff in Hp. rewrite Hp. by apply IH.
Qed.

(** A pattern without [:name] segments has nothing to decode. *)
Lemma route_params_literal pattern p : literal pattern = true → route_params pattern p = [].
Proof. apply seg_values_literal. Qed.

End PathFacts.

(* ===================================================================== *)
(** ** General facts about a walk *)
(* ===================================================================== *)

Section WalkFacts.

Variable env : Env.
Variable co : Collaborators.
Variable req : Request.

Lemma invoke_not_normal h r :
  status r ≠ Going Normal → invoke env co req h r = r.
Proof.
  intros Hst. unfold invoke.
  destruct (status r) as [[|e]|f]; congruence.
Qed.

Lemma invoke_normal h r :
  status r = Going Normal →
  invoke env co req h r = record (Handler h) (run_handler env co h req (session r)) r.
Proof. intros Hst. unfold invoke. by rewrite Hst. Qed.

Lemma step_done r l f : status r = Done f → step env co req r l = r.
Proof. intros Hst. unfold step. by rewrite Hst. Qed.

Lemma walk_done ls r f : status r = Done f → walk env co req ls r = r.
Proof.
  unfold walk. induction ls as [|l ls IH]; intros Hst; [done|].
  cbn [fold_left]. rewrite (step_done _ _ f) by done. by apply IH.
Qed.

Lemma walk_app l1 l2 r :
  walk env co req (l1 ++ l2) r = walk env co req l2 (walk env co req l1 r).
Proof. unfold walk. apply fold_left_app. Qed.

Lemma walk_cons l ls r :
  walk env co req (l :: ls) r = walk env co req ls (step env co req r l).
Proof. done. Qed.

(** A chain is built from [record] steps: a property kept by each
    handler that can be reached is kept by the chain. *)
Lemma run_chain_inv (P : Run → Prop) chain r :
  P r →
  (∀ h r', h ∈ chain → status r' = Going Normal → P r' →
     P (record (Handler h) (run_handler env co h req (session r')) r')) →
  P (run_chain env co req chain r).
Proof.
  unfold run_chain. revert r.
  induction chain as [|h chain IH]; intros r HP Hstep; [done|].
  cbn [fold_left]. apply IH.
  - unfold invoke. destruct (status r) as [[|e]|f] eqn:Hst; try done.
    apply Hstep; [left|done|done].
  - intros h' r' Hin. apply Hstep. by right.
Qed.

Lemma decode_failure_literal verb pat chain :
  Path.literal pat = true → decode_failure co req (Route verb pat chain) = None.
Proof.
  intros Hlit. cbn [decode_failure]. rewrite PathFacts.route_params_literal by done.
  by case_match.
Qed.

Lemma step_normal r l :
  status r = Going Normal → decode_failure co req l = None →
  step env co req r l
    = if layer_matches l req then
        match l with
        | Use _ h => invoke env co req h r
        | Route _ _ chain => run_chain env co req chain r
        | UseErr _ => r
        end
      else r.
Proof. intros Hst Hd. unfold step. by rewrite Hst, Hd. Qed.

Lemma step_use r m h :
  status r = Going Normal →
  step env co req r (Use m h)
    = if layer_matches (Use m h) req then invoke env co req h r else r.
Proof. intros Hst. by rewrite step_normal. Qed.

Lemma step_raise r l e :
  status r = Going Normal → decode_failure co req l = Some e →
  step env co req r l = raise e r.
Proof. intros Hst Hd. unfold step. by rewrite Hst, Hd. Qed.

Lemma step_failing r l e :
  status r = Going (Failing e) →
  step env co req r l
    = match l with
      | UseErr h => record (ErrHandler h) (run_err_handler env co h e req (session r)) r
      | _ => r
      end.
Proof. intros Hst. unfold step. by rewrite Hst. Qed.

(** Every run is built from three kinds of step: a handler runs, an
    error handler runs, the router raises an error. *)
Lemma walk_inv (P : Run → Prop) ls r :
  P r →
  (∀ l h r', l ∈ ls → h ∈ layer_handlers l → layer_matches l req = true →
     status r' = Going Normal → P r' →
     P (record (Handler h) (run_handler env co h req (session r')) r')) →
  (∀ h e r', UseErr h ∈ ls → status r' = Going (Failing e) → P r' →
     P (record (ErrHandler h) (run_err_handler env co h e req (session r')) r')) →
  (∀ l e r', l ∈ ls → decode_failure co req l = Some e →
     status r' = Going Normal → P r' → P (raise e r')) →
  P (walk env co req ls r).
Proof.
  unfold walk. revert r.
  induction ls as [|l ls IH]; intros r HP Hn He Hd; [done|].
  cbn [fold_left]. apply IH.
  - unfold step. destruct (status r) as [[|e]|f] eqn:Hst; [| |done].
    + destruct (decode_failure co req l) as [e|] eqn:Hfail.
      { apply (Hd l); [left|done..]. }
      destruct (layer_matches l req) eqn:Hm; [|done].
      destruct l as [mount h|verb pat chain|h]; [| |done].
      * unfold invoke. rewrite Hst.
        apply (Hn (Use mount h)); [left|cbn; left|done|done|done].
      * apply run_chain_inv; [done|].
        intros h r' Hin. by apply (Hn (Route verb pat chain)); [left|..].
    + destruct l as [mount h|verb pat chain|h]; [done|done|].
      apply He; [left|done|done].
  - intros l' h r' Hin. apply Hn. by right.
  - intros h e r' Hin. apply He. by right.
  - intros l' e r' Hin. apply Hd. by right.
Qed.

Lemma walk_actors ls r a :
  a ∈ actors (walk env co req ls r) → a ∈ actors r ∨ from_layers req ls a.
Proof.
  revert a. apply walk_inv.
  - intros a Ha. by left.
  - intros l h r' Hl Hh Hm _ IH a.
    unfold actors, record. cbn [trace]. rewrite fmap_app, elem_of_app.
    intros [Ha|Ha]; [by apply IH|].
    apply list_elem_of_singleton in Ha. cbn in Ha. subst a.
    right. cbn. eauto.
  - intros h e r' Hl _ IH a.
    unfold actors, record. cbn [trace]. rewrite fmap_app, elem_of_app.
    intros [Ha|Ha]; [by apply IH|].
    apply list_elem_of_singleton in Ha. cbn in Ha. subst a.
    right. done.
  - intros l e r' _ _ _ IH a. apply IH.
Qed.

Lemma walk_sound ls r ev :
  ev ∈ trace (walk env co req ls r) → ev ∈ trace r ∨ sound env co req ev.
Proof.
  revert ev. apply walk_inv.
  - intros ev Hev. by left.
  - intros l h r' _ _ _ _ IH ev. cbn [record trace]. rewrite elem_of_app.
    intros [Hev|Hev]; [by apply IH|].
    apply list_elem_of_singleton in Hev. subst ev. right. red. cbn. eauto.
  - intros h e r' _ _ IH ev. cbn [record trace]. rewrite elem_of_app.
    intros [Hev|Hev]; [by apply IH|].
    apply list_elem_of_singleton in Hev. subst ev. right. red. cbn. eauto.
  - intros l e r' _ _ _ IH ev. apply IH.
Qed.

(** The reply that ends a run is the last thing recorded. *)
Lemma walk_answered ls r a resp :
  status (walk env co req ls r) = Done (Answered a resp) →
  status r = Done (Answered a resp) ∨
  {| ev_actor := a; ev_signal := Respond resp |} ∈ trace (walk env co req ls r).
Proof.
  destruct (status r) as [m|f] eqn:Hr.
  2:{ rewrite (walk_done _ _ f) by done. rewrite Hr. by left. }
  intros Hw. right. revert a resp Hw.
  apply (walk_inv (fun r' => ∀ a resp, status r' = Done (Answered a resp) →
           {| ev_actor := a; ev_signal := Respond resp |} ∈ trace r')).
  - intros a resp. by rewrite Hr.
  - intros l h r' _ _ _ _ _ a resp. cbn [record status trace].
    destruct (run_handler env co h req (session r')) as [sg s']. cbn.
    destruct sg; cbn; try done. intros [= <- <-].
    apply elem_of_app. right. by left.
  - intros h e r' _ _ _ a resp. cbn [record status trace].
    destruct (run_err_handler env co h e req (session r')) as [sg s']. cbn.
    destruct sg; cbn; try done. intros [= <- <-].
    apply elem_of_app. right. by left.
  - intros l e r' _ _ _ _ a resp. done.
Qed.

Lemma guarded_snoc_other h1 h2 t ev :
  ev_actor ev ≠ Handler h2 → guarded h1 h2 t → guarded h1 h2 (t ++ [ev]).
Proof.
  intros Hne Hg i sg Hi.
  destruct (decide (i < length t)) as [Hlt|Hge].
  - rewrite lookup_app_l in Hi by done.
    destruct (Hg i sg Hi) as (j & -> & Hj). exists j. split; [done|].
    rewrite lookup_app_l by lia. done.
  - rewrite lookup_app_r in Hi by lia.
    destruct (i - length t) as [|k]; [|done]. cbn in Hi.
    injection Hi as ->. by destruct Hne.
Qed.

Lemma guarded_snoc_after h1 h2 t sg :
  last t = Some {| ev_actor := Handler h1; ev_signal := Next |} →
  guarded h1 h2 t →
  guarded h1 h2 (t ++ [{| ev_actor := Handler h2; ev_signal := sg |}]).
Proof.
  intros Hlast Hg i sg' Hi.
  destruct (decide (i < length t)) as [Hlt|Hge].
  - rewrite lookup_app_l in Hi by done.
    destruct (Hg i sg' Hi) as (j & -> & Hj). exists j. split; [done|].
    rewrite lookup_app_l by lia. done.
  - apply lookup_lt_Some in Hi as Hlen. rewrite length_app in Hlen. cbn in Hlen.
    assert (i = length t) as -> by lia.
    rewrite last_lookup in Hlast.
    apply lookup_lt_Some in Hlast as Hpos.
    exists (pred (length t)). split; [lia|].
    rewrite lookup_app_l by lia. done.
Qed.

Lemma invoke_guard h1 h2 prev x rest r :
  chain_guard h1 h2 prev (x :: rest) = true →
  guarded h1 h2 (trace r) → fresh_from prev r →
  guarded h1 h2 (trace (invoke env co req x r)) ∧
  fresh_from (Some x) (invoke env co req x r).
Proof.
  cbn [chain_guard]. intros [Hx _]%andb_prop Hg Hf.
  unfold invoke. destruct (status r) as [[|e]|f] eqn:Hst.
  - destruct (run_handler env co x req (session r)) as [sg s'].
    cbn [record trace status fst snd]. split.
    + destruct (decide (x = h2)) as [->|Hne].
      * apply bool_decide_eq_true in Hx.
        apply guarded_snoc_after; [|done]. by apply Hf.
      * apply guarded_snoc_other; [|done]. cbn. congruence.
    + intros Hn h [= <-]. cbn [record trace status] in *.
      rewrite last_snoc. destruct sg; cbn in Hn; try done.
  - split; [done|]. intros Hn. congruence.
  - split; [done|]. intros Hn. congruence.
Qed.

Lemma run_chain_guard h1 h2 prev chain r :
  chain_guard h1 h2 prev chain = true →
  guarded h1 h2 (trace r) → fresh_from prev r →
  guarded h1 h2 (trace (run_chain env co req chain r)).
Proof.
  unfold run_chain. revert prev r.
  induction chain as [|x rest IH]; intros prev r Hc Hg Hf; [done|].
  cbn [fold_left].
  destruct (invoke_guard _ _ _ _ _ _ Hc Hg Hf) as [Hg' Hf'].
  cbn [chain_guard] in Hc. apply andb_prop in Hc as [_ Hc].
  by apply (IH (Some x)).
Qed.

Lemma step_guard h1 h2 l r :
  layer_guard h1 h2 l = true →
  guarded h1 h2 (trace r) → guarded h1 h2 (trace (step env co req r l)).
Proof.
  intros Hl Hg. unfold step.
  destruct (status r) as [[|e]|f] eqn:Hst; [| |done].
  - destruct (decode_failure co req l); [done|].
    destruct (layer_matches l req); [|done].
    destruct l as [mount h|verb pat chain|h]; [| |done].
    + apply (run_chain_guard h1 h2 None [h]); [done|done|].
      intros _ h' [=].
    + apply (run_chain_guard h1 h2 None chain); [done|done|].
      intros _ h' [=].
  - destruct l as [mount h|verb pat chain|h]; [done|done|].
    cbn [record trace]. by apply guarded_snoc_other.
Qed.

Lemma walk_guard h1 h2 ls r :
  forallb (layer_guard h1 h2) ls = true →
  guarded h1 h2 (trace r) → guarded h1 h2 (trace (walk env co req ls r)).
Proof.
  unfold walk. revert r.
  induction ls as [|l ls IH]; intros r Hls Hg; [done|].
  cbn [forallb] in Hls. apply andb_prop in Hls as [Hl Hls].
  cbn [fold_left]. apply IH; [done|]. by apply step_guard.
Qed.

Lemma step_stuck r l :
  status r ≠ Going Normal → is_normal l = true → step env co req r l = r.
Proof.
  intros Hst Hl. unfold step. destruct (status r) as [[|e]|f]; [done| |done].
  by destruct l.
Qed.

Lemma walk_stuck ls r :
  status r ≠ Going Normal → forallb is_normal ls = true → walk env co req ls r = r.
Proof.
  intros Hst. unfold walk. induction ls as [|l ls IH]; [done|].
  cbn [forallb fold_left]. intros [Hl Hls]%andb_prop.
  rewrite step_stuck by done. by apply IH.
Qed.

(** Through layers that handle no errors, normal flow at the end means
    normal flow from the beginning. *)
Lemma walk_normal_back ls r :
  forallb is_normal ls = true →
  status (walk env co req ls r) = Going Normal → status r = Going Normal.
Proof.
  intros Hls Hend.
  destruct (status r) as [[|e]|f] eqn:Hst; [done|..];
    rewrite walk_stuck in Hend by (done || by rewrite Hst); congruence.
Qed.

Lemma from_layers_handlers ls h :
  from_layers req ls (Handler h) → h ∈ handlers_of ls.
Proof. intros (l & Hl & Hh & _). apply list_elem_of_bind. eauto. Qed.

(** A walk only adds to the trace, and what it adds comes from its layers. *)
Lemma walk_trace_ext ls r :
  ∃ evs, trace (walk env co req ls r) = trace r ++ evs ∧
         ∀ ev, ev ∈ evs → from_layers req ls (ev_actor ev).
Proof.
  apply (walk_inv
           (λ r', ∃ evs, trace r' = trace r ++ evs ∧
                         ∀ ev, ev ∈ evs → from_layers req ls (ev_actor ev))).
  - exists []. split; [by rewrite app_nil_r|]. intros ev Hev. by apply elem_of_nil in Hev.
  - intros l h r' Hl Hh Hm _ (evs & Htr & Hfrom). eexists (evs ++ [_]). split.
    + cbn [record trace]. by rewrite Htr, <- app_assoc.
    + intros ev [Hev|Hev]%elem_of_app; [by apply Hfrom|].
      apply list_elem_of_singleton in Hev. subst ev. cbn. eauto.
  - intros h e r' Hl _ (evs & Htr & Hfrom). eexists (evs ++ [_]). split.
    + cbn [record trace]. by rewrite Htr, <- app_assoc.
    + intros ev [Hev|Hev]%elem_of_app; [by apply Hfrom|].
      apply list_elem_of_singleton in Hev. subst ev. done.
  - intros l e r' _ _ _ IH. exact IH.
Qed.

End WalkFacts.

(* ===================================================================== *)
(** ** The session binder (lines 96-101) *)
(* ===================================================================== *)

Section Binder.

(** C4, as stated, fails: a request carrying the parameter with the
    empty string as value leaves the host bound before in place. *)
Lemma binder_empty_parameter_keeps_old_host :
  let req := Sample.request_for "GET" "/jira/configuration" (QStr "") in
  let s := Sample.bound_to "https://old.atlassian.net" in
  xdm_e req = Some (QStr "") ∧
  jiraHost (jiraHostBinder req s).2 = Some (QStr "https://old.atlassian.net") ∧
  jiraHost (jiraHostBinder req s).2 ≠ xdm_e req.
Proof. cbv. repeat split; congruence. Qed.

(** C4, amended: for every request whose tenant parameter is present
    and truthy (any value but the empty string), the binder calls
    [next()] and leaves [jiraHost] equal to that value whatever the
    session held; for every request without the parameter the binder
    calls [next()] and returns the session as it was. *)
Theorem binder_binds_truthy_parameter (req : Request) (s : Session) :
  (∀ v, xdm_e req = Some v → truthy v = true →
     (jiraHostBinder req s).1 = Next ∧
     jiraHost (jiraHostBinder req s).2 = Some v ∧
     oauthGrant (jiraHostBinder req s).2 = oauthGrant s) ∧
  (xdm_e req = None → jiraHostBinder req s = (Next, s)).
Proof.
  unfold jiraHostBinder. split.
  - intros v -> ->. done.
  - intros ->. done.
Qed.

Lemma binder_binds_truthy_parameter_witness :
  jiraHost (jiraHostBinder
              (Sample.request_for "GET" "/jira/configuration" (QStr "https://new.atlassian.net"))
              (Sample.bound_to "https://old.atlassian.net")).2
    = Some (QStr "https://new.atlassian.net") ∧
  jiraHostBinder (Sample.request "GET" "/") (Sample.bound_to "https://old.atlassian.net")
    = (Next, Sample.bound_to "https://old.atlassian.net").
Proof.
  split.
  - apply (binder_binds_truthy_parameter
             (Sample.request_for "GET" "/jira/configuration" (QStr "https://new.atlassian.net"))
             (Sample.bound_to "https://old.atlassian.net")); reflexivity.
  - apply (binder_binds_truthy_parameter
             (Sample.request "GET" "/") (Sample.bound_to "https://old.atlassian.net")).
    reflexivity.
Defined.

(** C9: a request whose tenant parameter is present and equal to the
    empty string is treated as one without the parameter: the binder
    calls [next()] and the session, [jiraHost] included, is unchanged. *)
Theorem binder_ignores_empty_parameter (req : Request) (s : Session) :
  xdm_e req = Some (QStr "") →
  jiraHostBinder req s = (Next, s) ∧
  jiraHostBinder req s
    = jiraHostBinder {| method := method req; path := path req; xdm_e := None |} s.
Proof. unfold jiraHostBinder. intros ->. done. Qed.

Lemma binder_ignores_empty_parameter_witness :
  jiraHostBinder (Sample.request_for "GET" "/github/setup" (QStr ""))
                 (Sample.bound_to "https://acme.atlassian.net")
    = (Next, Sample.bound_to "https://acme.atlassian.net").
Proof.
  apply (binder_ignores_empty_parameter
           (Sample.request_for "GET" "/github/setup" (QStr ""))
           (Sample.bound_to "https://acme.atlassian.net")).
  reflexivity.
Defined.

End Binder.

(* ===================================================================== *)
(** ** The tenant host of a session along a request *)
(* ===================================================================== *)

Section TenantHost.

Variable env : Env.
Variable co : Collaborators.

Lemma host_after_idem req h : host_after req (host_after req h) = host_after req h.
Proof. unfold host_after. destruct (xdm_e req) as [v|]; [|done]. by destruct (truthy v). Qed.


(** Of all handlers only the binder touches the host. *)
Lemma run_handler_host req h s :
  keep_host co →
  jiraHost (run_handler env co h req s).2
    = if decide (h = JiraHostBinder) then host_after req (jiraHost s) else jiraHost s.
Proof.
  intros (Hext & Hmaint & _).
  destruct h as [x| | | | | |]; cbn [run_handler]; case_decide; try done.
  - specialize (Hmaint req s). by destruct (getMaintenance co req s).
  - unfold csrfProtection. by repeat case_match.
  - unfold jiraHostBinder, host_after. by repeat case_match.
  - unfold maintenanceGate. specialize (Hmaint req s).
    destruct (isMaintenanceMode env); [|done]. by destruct (getMaintenance co req s).
  - unfold rootRedirect. by repeat case_match.
Qed.

Lemma run_err_handler_host req h e s :
  keep_host co → jiraHost (run_err_handler env co h e req s).2 = jiraHost s.
Proof.
  intros (_ & _ & Hsentry). destruct h; cbn [run_err_handler].
  - done.
  - apply Hsentry.
  - unfold catchErrors. by repeat case_match.
Qed.





End TenantHost.

Lemma sample_collaborators_keep_host : keep_host Sample.co_pass.
Proof.
  repeat split.
  - intros x req s. cbn. by destruct (Sample.replies x).
Qed.



(* ===================================================================== *)
(** ** The central error handler (lines 169-186) *)
(* ===================================================================== *)

Section Classifier.

Lemma error_status_kind e :
  message e ∉ object_prototype_names →
  error_status e = StatusCode (kind_status (kind_of e)).
Proof.
  intros Hout. unfold error_status, errorCodes_at, errorCodes, kind_of.
  rewrite !lookup_insert, lookup_singleton.
  repeat case_decide; try congruence; done.
Qed.

Lemma error_status_inherited e :
  message e ∈ object_prototype_names → error_status e = NotANumber (message e).
Proof.
  destruct e as [m st]. cbn [message]. intros Hin.
  unfold object_prototype_names in Hin.
  repeat (apply elem_of_cons in Hin as [->|Hin]); [by vm_compute..|].
  by apply elem_of_nil in Hin.
Qed.

Lemma app_layers_front b : app_layers b = app_front b ++ [UseErr CatchErrors].
Proof. by destruct b. Qed.

Lemma catchErrors_answers env co e req s :
  NODE_ENV env ≠ Some "development" → message e ∉ object_prototype_names →
  catchErrors env co e req s = (Respond (error_page (kind_status (kind_of e))), s).
Proof.
  intros Hdev Hout. unfold catchErrors, node_env_is.
  by rewrite bool_decide_eq_false_2, error_status_kind.
Qed.

Lemma catchErrors_refuses env co e req s :
  NODE_ENV env ≠ Some "development" → message e ∈ object_prototype_names →
  catchErrors env co e req s = (NextErr (invalidStatusCode co (message e)), s).
Proof.
  intros Hdev Hin. unfold catchErrors, node_env_is.
  by rewrite bool_decide_eq_false_2, error_status_inherited.
Qed.

(** The central handler is the last layer: what is still failing when
    it gets there ends with what the handler does. *)
Lemma outcome_at_central env co req s e :
  status (walk env co req (app_front (boom_enabled env)) (start s)) = Going (Failing e) →
  outcome env co req s
    = finish (record (ErrHandler CatchErrors)
                (catchErrors env co e req
                   (session (walk env co req (app_front (boom_enabled env)) (start s))))
                (walk env co req (app_front (boom_enabled env)) (start s))).
Proof.
  intros Hst. unfold outcome, dispatch, app_stack.
  rewrite app_layers_front, walk_app.
  set (r := walk env co req (app_front (boom_enabled env)) (start s)) in *.
  unfold walk at 1. cbn [fold_left]. by rewrite (step_failing _ _ _ _ _ e).
Qed.

Lemma outcome_failing env co req s e :
  NODE_ENV env ≠ Some "development" → message e ∉ object_prototype_names →
  status (walk env co req (app_front (boom_enabled env)) (start s)) = Going (Failing e) →
  outcome env co req s
    = Answered (ErrHandler CatchErrors) (error_page (kind_status (kind_of e))).
Proof.
  intros Hdev Hout Hst. rewrite (outcome_at_central _ _ _ _ e) by done.
  by rewrite catchErrors_answers.
Qed.

Lemma outcome_failing_inherited env co req s e :
  NODE_ENV env ≠ Some "development" → message e ∈ object_prototype_names →
  status (walk env co req (app_front (boom_enabled env)) (start s)) = Going (Failing e) →
  outcome env co req s = Uncaught (invalidStatusCode co (message e)).
Proof.
  intros Hdev Hin Hst. rewrite (outcome_at_central _ _ _ _ e) by done.
  by rewrite catchErrors_refuses.
Qed.

(** An error raised by a handler stays the error in flight as long as
    no error handler takes it up. *)
Lemma walk_raised env co req ls s h e :
  forwards_errors co → UseErr CatchErrors ∉ ls →
  {| ev_actor := Handler h; ev_signal := NextErr e |} ∈ trace (walk env co req ls (start s)) →
  status (walk env co req ls (start s)) = Going (Failing e).
Proof.
  intros Hfw Hls. revert h e.
  apply (walk_inv env co req
           (λ r, ∀ h e, {| ev_actor := Handler h; ev_signal := NextErr e |} ∈ trace r →
                   status r = Going (Failing e))).
  - intros h e Hin. by apply elem_of_nil in Hin.
  - intros l h0 r' _ _ _ Hst IH h e. cbn [record trace status].
    rewrite elem_of_app. intros [Hin|Hin].
    + specialize (IH h e Hin). congruence.
    + apply list_elem_of_singleton in Hin. injection Hin as _ Hsg.
      by rewrite <- Hsg.
  - intros h0 e0 r' Hh0 Hst IH h e. cbn [record trace status].
    rewrite elem_of_app. intros [Hin|Hin].
    2:{ apply list_elem_of_singleton in Hin. discriminate Hin. }
    specialize (IH h e Hin). rewrite Hst in IH. injection IH as ->.
    destruct h0; cbn [run_err_handler].
    + done.
    + by rewrite Hfw.
    + by destruct Hls.
  - intros l e0 r' _ _ Hst IH h e Hin. specialize (IH h e Hin). congruence.
Qed.

Lemma central_not_in_front b : UseErr CatchErrors ∉ app_front b.
Proof. destruct b; compute_done. Qed.

(** What a handler raised is what the central handler receives. *)
Lemma raised_reaches_central env co req s h e :
  forwards_errors co →
  {| ev_actor := Handler h; ev_signal := NextErr e |} ∈ trace (dispatch env co req s) →
  status (walk env co req (app_front (boom_enabled env)) (start s)) = Going (Failing e).
Proof.
  intros Hfw Hin. apply (walk_raised _ _ _ _ _ h); [done|apply central_not_in_front|].
  revert Hin. unfold dispatch, app_stack. rewrite app_layers_front, walk_app.
  set (r := walk env co req (app_front (boom_enabled env)) (start s)).
  unfold walk at 1. cbn [fold_left]. unfold step.
  destruct (status r) as [[|e']|f]; [done| |done].
  cbn [record trace]. rewrite elem_of_app. intros [Hin|Hin]; [done|].
  apply list_elem_of_singleton in Hin. discriminate Hin.
Qed.

Lemma outcome_raised env co req s h e :
  NODE_ENV env ≠ Some "development" → forwards_errors co →
  message e ∉ object_prototype_names →
  {| ev_actor := Handler h; ev_signal := NextErr e |} ∈ trace (dispatch env co req s) →
  outcome env co req s
    = Answered (ErrHandler CatchErrors) (error_page (kind_status (kind_of e))).
Proof.
  intros Hdev Hfw Hout Hin. apply outcome_failing; [done..|].
  by apply (raised_reaches_central _ _ _ _ h).
Qed.

(** C3, as stated, fails: in development mode a request that ends in an
    Unauthorized error gets no 401 and no error page; the error leaves
    the stack as it is. *)
Lemma development_error_is_not_classified :
  let env := Sample.env_named "development" in
  let req := Sample.request "GET" "/jira/configuration" in
  catchErrors env Sample.co_rejecting Sample.unauthorized req Sample.no_session
    = (NextErr Sample.unauthorized, Sample.no_session) ∧
  outcome env Sample.co_rejecting req Sample.no_session = Uncaught Sample.unauthorized.
Proof. split; vm_compute; reflexivity. Qed.

(** C3, amended: when [NODE_ENV] is not [development], the central error
    handler answers every error whose message is not the name of a member
    every object inherits with the generic error page, under the status
    401 for Unauthorized, 403 for Forbidden, 404 for Not Found and 400
    for any other such error; so ends every request that is still failing
    with such an error when it gets there, and (Sentry's handler passing
    errors on) every request in which a handler raised one. *)
Theorem classifier_maps_kinds_outside_development
    (env : Env) (co : Collaborators) (req : Request) (s : Session) (e : Err) :
  NODE_ENV env ≠ Some "development" →
  message e ∉ object_prototype_names →
  catchErrors env co e req s = (Respond (error_page (kind_status (kind_of e))), s) ∧
  (status (walk env co req (app_front (boom_enabled env)) (start s)) = Going (Failing e) →
   outcome env co req s
     = Answered (ErrHandler CatchErrors) (error_page (kind_status (kind_of e)))) ∧
  (forwards_errors co →
   ∀ h, {| ev_actor := Handler h; ev_signal := NextErr e |} ∈ trace (dispatch env co req s) →
        outcome env co req s
          = Answered (ErrHandler CatchErrors) (error_page (kind_status (kind_of e)))).
Proof.
  intros Hdev Hout. split; [|split].
  - by apply catchErrors_answers.
  - by apply outcome_failing.
  - intros Hfw h. by apply outcome_raised.
Qed.

Lemma classifier_maps_kinds_outside_development_witness :
  catchErrors Sample.env_default Sample.co_rejecting Sample.unauthorized
              (Sample.request "GET" "/jira/configuration") Sample.no_session
    = (Respond (Render 401 "github-error.hbs" "GitHub + Jira integration"),
       Sample.no_session) ∧
  outcome Sample.env_default Sample.co_rejecting
          (Sample.request "GET" "/jira/configuration") Sample.no_session
    = Answered (ErrHandler CatchErrors)
               (Render 401 "github-error.hbs" "GitHub + Jira integration").
Proof.
  destruct (classifier_maps_kinds_outside_development
              Sample.env_default Sample.co_rejecting
              (Sample.request "GET" "/jira/configuration") Sample.no_session
              Sample.unauthorized) as (Hmap & Hrun & _).
  - discriminate.
  - vm_compute. intros Hin.
    repeat (inversion Hin as [|? ? ? Hin']; clear Hin; rename Hin' into Hin).
  - split; [exact Hmap|]. apply Hrun. vm_compute. reflexivity.
Defined.

(** C8, a defect of line 180: the central handler hands the error on
    unclassified exactly when [NODE_ENV] is [development], and with
    [NODE_ENV] unset it does not, as the claim has it; outside that mode
    the status-and-page mapping is applied to every error whose message
    is not the name of a member every object inherits; but for a message
    that is such a name ([constructor], [toString], ...) the index into
    [errorCodes] finds the inherited member, what [res.status] is given
    is no number, no page is sent, and the request ends with a raw error
    leaving the stack. *)
Theorem inherited_message_escapes_classifier
    (env : Env) (co : Collaborators) (req : Request) (s : Session) (e : Err) :
  (bypasses env ↔ NODE_ENV env = Some "development") ∧
  (NODE_ENV env = None → ¬ bypasses env) ∧
  (NODE_ENV env ≠ Some "development" →
     (message e ∉ object_prototype_names →
        catchErrors env co e req s
          = (Respond (error_page (kind_status (kind_of e))), s)) ∧
     (message e ∈ object_prototype_names →
        error_status e = NotANumber (message e) ∧
        catchErrors env co e req s = (NextErr (invalidStatusCode co (message e)), s) ∧
        (status (walk env co req (app_front (boom_enabled env)) (start s))
           = Going (Failing e) →
         outcome env co req s = Uncaught (invalidStatusCode co (message e))) ∧
        (forwards_errors co →
         ∀ h, {| ev_actor := Handler h; ev_signal := NextErr e |}
                ∈ trace (dispatch env co req s) →
              outcome env co req s = Uncaught (invalidStatusCode co (message e))))).
Proof.
  assert (bypasses env ↔ NODE_ENV env = Some "development") as Hiff.
  { split.
    - intros Hby. destruct (decide (NODE_ENV env = Some "development")) as [|Hne]; [done|].
      specialize (Hby Sample.co_pass Sample.unauthorized (Sample.request "GET" "/")
                      Sample.no_session).
      unfold catchErrors, node_env_is in Hby.
      rewrite bool_decide_eq_false_2 in Hby by done. discriminate Hby.
    - intros Hdev co' e' req' s'. unfold catchErrors, node_env_is.
      by rewrite bool_decide_eq_true_2. }
  split; [done|]. split.
  - intros Hnone Hby. apply Hiff in Hby. congruence.
  - intros Hne. split.
    + intros Hout. by apply catchErrors_answers.
    + intros Hin. split; [by apply error_status_inherited|].
      split; [by apply catchErrors_refuses|]. split.
      * by apply outcome_failing_inherited.
      * intros Hfw h Hev. apply outcome_failing_inherited; [done..|].
        by apply (raised_reaches_central _ _ _ _ h).
Qed.

End Classifier.

Lemma inherited_message_escapes_classifier_witness :
  ¬ bypasses Sample.env_default ∧
  error_status constructor_error = NotANumber "constructor" ∧
  outcome Sample.env_default co_constructor
          (Sample.request "POST" "/jira/sync") (Sample.bound_to "https://acme.atlassian.net")
    = Uncaught {| message := "Invalid status code: constructor"; err_status := None |}.
Proof.
  destruct (inherited_message_escapes_classifier
              Sample.env_default co_constructor (Sample.request "POST" "/jira/sync")
              (Sample.bound_to "https://acme.atlassian.net") constructor_error)
    as (_ & Hunset & Hrest).
  destruct Hrest as [_ Hbad]; [discriminate|].
  destruct Hbad as (Hstatus & _ & _ & Hrun); [by left|].
  split; [by apply Hunset|]. split; [exact Hstatus|].
  apply (Hrun (λ e req s, eq_refl) (Ext VerifyJiraMiddleware)).
  vm_compute. do 8 right. left.
Defined.

(* ===================================================================== *)
(** ** Which layers a handler can run from *)
(* ===================================================================== *)

Section Provenance.

Variable env : Env.
Variable co : Collaborators.
Variable req : Request.

Lemma ran_start h s : ¬ ran h (start s).
Proof. unfold ran, actors. cbn. apply not_elem_of_nil. Qed.

Lemma ran_from_layer ls s h :
  ran h (walk env co req ls (start s)) →
  ∃ l, l ∈ layers_with h ls ∧ layer_matches l req = true.
Proof.
  intros [Hr|Hr]%walk_actors; [by apply ran_start in Hr|].
  destruct Hr as (l & Hl & Hh & Hm). exists l. split; [|done].
  apply list_elem_of_filter. done.
Qed.

Lemma ran_event h r :
  ran h r → ∃ i sg, trace r !! i = Some {| ev_actor := Handler h; ev_signal := sg |}.
Proof.
  unfold ran, actors. intros ([a sg] & Ha & Hin)%list_elem_of_fmap.
  cbn in Ha. subst a. apply list_elem_of_lookup in Hin as [i Hi]. eauto.
Qed.

Lemma route_layer_pins verb pat chain :
  Path.literal pat = true →
  layer_matches (Route verb pat chain) req = true →
  verb_matches verb (method req) = true ∧ Path.key (path req) = Path.key pat.
Proof.
  intros Hlit [Hv Hp]%andb_prop. split; [done|].
  by apply PathFacts.route_matches_key.
Qed.

Lemma route_layer_verb verb pat chain :
  layer_matches (Route verb pat chain) req = true →
  verb_matches verb (method req) = true.
Proof. by intros [Hv _]%andb_prop. Qed.

Lemma verb_matches_get m :
  verb_matches "GET" m = true → m = "GET" ∨ m = "HEAD".
Proof.
  unfold verb_matches. intros [Hm|[_ Hm]%andb_prop]%orb_prop;
    apply bool_decide_eq_true in Hm; [by left|by right].
Qed.

Lemma verb_matches_post m : verb_matches "POST" m = true → m = "POST".
Proof.
  unfold verb_matches. intros [Hm|[Hm _]%andb_prop]%orb_prop;
    apply bool_decide_eq_true in Hm; done.
Qed.

End Provenance.

(** Evaluate the list a layer is known to be in, then go through it. *)
Ltac enumerate H :=
  match type of H with
  | ?l ∈ ?X => let v := eval vm_compute in X in change (l ∈ v) in H
  end;
  repeat (apply elem_of_cons in H as [->|H]);
  [..|by apply elem_of_nil in H].

(* ===================================================================== *)
(** ** The anti-forgery guard (lines 45-53 and its routes) *)
(* ===================================================================== *)

Section AntiForgery.

Variable env : Env.
Variable co : Collaborators.
Variable req : Request.

Lemma ignoreMethods_test :
  NODE_ENV env = Some "test" → ignoreMethods env = ["GET"; "HEAD"; "OPTIONS"; "POST"; "PUT"].
Proof.
  intros Htest. unfold ignoreMethods, csrfOptions, node_env_is.
  by rewrite bool_decide_eq_true_2.
Qed.

Lemma ignoreMethods_other :
  NODE_ENV env ≠ Some "test" → ignoreMethods env = ["GET"; "HEAD"; "OPTIONS"].
Proof.
  intros Htest. unfold ignoreMethods, csrfOptions, node_env_is.
  by rewrite bool_decide_eq_false_2.
Qed.

Lemma csrfProtection_exempt s :
  csrf_exempt env (method req) = true → csrfProtection env co req s = (Next, s).
Proof. unfold csrfProtection. by intros ->. Qed.

Lemma csrfProtection_checked s :
  csrf_exempt env (method req) = false →
  csrfProtection env co req s
    = if csrfTokenValid co req s then (Next, s) else (NextErr (invalidCsrfToken co), s).
Proof. unfold csrfProtection. by intros ->. Qed.

(** C10: in the test configuration the methods the guard leaves alone
    are exactly GET, HEAD, OPTIONS, POST and PUT: a DELETE request still
    goes on only with a token that verifies, and is failed with the
    guard's error otherwise, whereas a POST or PUT request goes on
    whatever its token; so, in a walk of the application, every guard a
    POST or PUT request meets calls [next()]. *)
Theorem test_configuration_exempts_post_and_put (s : Session) :
  NODE_ENV env = Some "test" →
  (∀ m, csrf_exempt env m = true ↔ m ∈ ["GET"; "HEAD"; "OPTIONS"; "POST"; "PUT"]) ∧
  (method req = "DELETE" →
     csrfProtection env co req s
       = if csrfTokenValid co req s then (Next, s) else (NextErr (invalidCsrfToken co), s)) ∧
  (method req = "POST" ∨ method req = "PUT" →
     csrfProtection env co req s = (Next, s) ∧
     ∀ ev, ev ∈ trace (dispatch env co req s) →
           ev_actor ev = Handler CsrfProtection → ev_signal ev = Next).
Proof.
  intros Htest.
  assert (∀ m, csrf_exempt env m = true ↔ m ∈ ["GET"; "HEAD"; "OPTIONS"; "POST"; "PUT"])
    as Hex.
  { intros m. unfold csrf_exempt. rewrite ignoreMethods_test by done.
    apply bool_decide_eq_true. }
  split; [done|]. split.
  - intros Hm. apply csrfProtection_checked.
    apply not_true_is_false. rewrite Hex, Hm. compute_done.
  - intros Hm.
    assert (csrf_exempt env (method req) = true) as Hexm.
    { apply Hex. destruct Hm as [-> | ->]; compute_done. }
    split; [by apply csrfProtection_exempt|].
    intros ev [Hev|Hev]%walk_sound Hactor; [by apply elem_of_nil in Hev|].
    red in Hev. rewrite Hactor in Hev. destruct Hev as [s' ->].
    cbn [run_handler]. by rewrite csrfProtection_exempt.
Qed.

End AntiForgery.

Lemma test_configuration_exempts_post_and_put_witness :
  csrf_exempt (Sample.env_named "test") "PUT" = true ∧
  csrf_exempt (Sample.env_named "test") "DELETE" = false ∧
  csrfProtection (Sample.env_named "test") Sample.co_pass
                 (Sample.request "DELETE" "/github/subscription") Sample.no_session
    = (NextErr Sample.csrf_error, Sample.no_session) ∧
  csrfProtection (Sample.env_named "test") Sample.co_pass
                 (Sample.request "POST" "/github/subscription") Sample.no_session
    = (Next, Sample.no_session).
Proof.
  destruct (test_configuration_exempts_post_and_put
              (Sample.env_named "test") Sample.co_pass
              (Sample.request "DELETE" "/github/subscription") Sample.no_session)
    as (Hex & Hdelete & _); [reflexivity|].
  destruct (test_configuration_exempts_post_and_put
              (Sample.env_named "test") Sample.co_pass
              (Sample.request "POST" "/github/subscription") Sample.no_session)
    as (_ & _ & Hpost); [reflexivity|].
  split; [|split; [|split]].
  - apply Hex. vm_compute. do 4 right. left.
  - reflexivity.
  - apply Hdelete. reflexivity.
  - apply Hpost. left. reflexivity.
Defined.

(* ===================================================================== *)
(** ** The lifecycle event routes (lines 131-134) *)
(* ===================================================================== *)

Section Lifecycle.

Variable env : Env.
Variable co : Collaborators.
Variable req : Request.

Lemma signed_events_guarded b h :
  h ∈ signed_events →
  forallb (layer_guard (Ext JiraAuthenticate) (Ext h)) (app_layers b) = true.
Proof. intros Hh. enumerate Hh; by destruct b. Qed.

Lemma guarded_nil h1 h2 : guarded h1 h2 [].
Proof. intros i sg Hi. by rewrite lookup_nil in Hi. Qed.

(** C5: in every run of the application, the handler of the [enabled],
    [disabled] or [uninstalled] event runs only directly after the webhook
    authenticator has called [next()]; a run in which the [installed]
    handler runs never runs the authenticator; and the stack holds the
    [installed] handler in one route, alone, and the authenticator in the
    three other event routes only. *)
Theorem installed_is_the_only_unsigned_event (s : Session) :
  let r := dispatch env co req s in
  (∀ h, h ∈ signed_events → guarded (Ext JiraAuthenticate) (Ext h) (trace r)) ∧
  (ran (Ext PostJiraInstall) r → ¬ ran (Ext JiraAuthenticate) r) ∧
  layers_with (Ext PostJiraInstall) (app_stack env)
    = [Route "POST" "/jira/events/installed" [Ext PostJiraInstall]] ∧
  layers_with (Ext JiraAuthenticate) (app_stack env)
    = [Route "POST" "/jira/events/disabled" [Ext JiraAuthenticate; Ext PostJiraDisable];
       Route "POST" "/jira/events/enabled" [Ext JiraAuthenticate; Ext PostJiraEnable];
       Route "POST" "/jira/events/uninstalled" [Ext JiraAuthenticate; Ext PostJiraUninstall]].
Proof.
  cbn zeta. unfold dispatch, app_stack. generalize (boom_enabled env) as b. intros b.
  split; [|split; [|split]].
  - intros h Hh. apply walk_guard; [by apply signed_events_guarded|apply guarded_nil].
  - intros (l1 & Hl1 & Hm1)%ran_from_layer (l2 & Hl2 & Hm2)%ran_from_layer.
    assert (∃ p1 p2 c1 c2, l1 = Route "POST" p1 c1 ∧ l2 = Route "POST" p2 c2 ∧
              Path.literal p1 = true ∧ Path.literal p2 = true ∧
              Path.key p1 ≠ Path.key p2) as (p1 & p2 & c1 & c2 & -> & -> & L1 & L2 & Hne).
    { destruct b; enumerate Hl1; enumerate Hl2;
        do 4 eexists; (split; [reflexivity|]); (split; [reflexivity|]);
        repeat split; by vm_compute. }
    apply route_layer_pins in Hm1 as [_ K1]; [|done].
    apply route_layer_pins in Hm2 as [_ K2]; [|done].
    congruence.
  - by destruct b.
  - by destruct b.
Qed.

End Lifecycle.

Lemma installed_is_the_only_unsigned_event_witness :
  let r := dispatch Sample.env_default Sample.co_pass
                    (Sample.request "POST" "/jira/events/installed") Sample.no_session in
  ran (Ext PostJiraInstall) r ∧ ¬ ran (Ext JiraAuthenticate) r.
Proof.
  cbn zeta.
  assert (ran (Ext PostJiraInstall)
            (dispatch Sample.env_default Sample.co_pass
                      (Sample.request "POST" "/jira/events/installed") Sample.no_session))
    as Hran by (vm_compute; do 8 right; left).
  split; [exact Hran|].
  exact (proj1 (proj2 (installed_is_the_only_unsigned_event
                         Sample.env_default Sample.co_pass
                         (Sample.request "POST" "/jira/events/installed")
                         Sample.no_session)) Hran).
Defined.

(* ===================================================================== *)
(** ** Where the anti-forgery guard stands (lines 113-127) *)
(* ===================================================================== *)

Section ForgeryRoutes.

Variable env : Env.
Variable co : Collaborators.
Variable req : Request.

Lemma tenant_mutations_unguarded b s route :
  route ∈ tenant_mutations → targets route req →
  ¬ ran CsrfProtection (walk env co req (app_layers b) (start s)).
Proof.
  intros Hroute [Hm Hp] (l & Hl & Hmatch)%ran_from_layer.
  enumerate Hroute; cbn [fst snd] in Hm, Hp;
    (apply PathFacts.route_matches_key in Hp; [|done]);
    destruct b; enumerate Hl;
    cbn [layer_matches] in Hmatch; apply andb_prop in Hmatch as [Hv Hp'];
    rewrite Hm in Hv;
    first [ by vm_compute in Hv
          | (apply PathFacts.route_matches_key in Hp'; [|done]);
            rewrite Hp in Hp'; by vm_compute in Hp' ].
Qed.

Lemma forgery_guarded_check b h :
  h ∈ forgery_guarded →
  forallb (layer_guard CsrfProtection (Ext h)) (app_layers b) = true.
Proof. intros Hh. enumerate Hh; by destruct b. Qed.

Lemma tenant_mutation_handlers_check b h :
  h ∈ tenant_mutation_handlers →
  forallb (layer_guard (Ext VerifyJiraMiddleware) (Ext h)) (app_layers b) = true.
Proof. intros Hh. enumerate Hh; by destruct b. Qed.

(** What the guard does with a checked request whose token fails. *)
Lemma csrfProtection_rejects s :
  NODE_ENV env ≠ Some "test" → method req = "POST" →
  csrfTokenValid co req s = false →
  csrfProtection env co req s = (NextErr (invalidCsrfToken co), s).
Proof.
  intros Htest Hm Htoken. rewrite csrfProtection_checked, Htoken; [done|].
  unfold csrf_exempt. rewrite ignoreMethods_other, Hm by done. done.
Qed.

(** C2, as stated, fails: outside the test configuration a DELETE of
    the tenant configuration that carries no verifying anti-forgery token
    is handled and answered with success; the guard is not run. *)
Lemma tenant_delete_succeeds_without_token :
  let req := Sample.request "DELETE" "/jira/configuration" in
  let s := Sample.bound_to "https://acme.atlassian.net" in
  let r := dispatch Sample.env_default Sample.co_pass req s in
  csrfTokenValid Sample.co_pass req s = false ∧
  finish r = Answered (Handler (Ext DeleteJiraConfiguration)) (Reply 200 "ok") ∧
  actors r = [Handler (Ext SentryRequestHandler); Handler (Ext BodyParserUrlencoded);
              Handler (Ext BodyParserJson); Handler (Ext CookieSession);
              Handler (Ext LogMiddleware); Handler JiraHostBinder;
              Handler (Ext GithubClientMiddleware); Handler MaintenanceGate;
              Handler (Ext VerifyJiraMiddleware); Handler (Ext DeleteJiraConfiguration)].
Proof. repeat split; vm_compute; reflexivity. Qed.

(** A POST route behind the guard, met with a token that does not
    verify against the session the request has come with: the guard
    raises its error and the chain ends there. *)
Lemma guarded_post_fails pat h r :
  Path.literal pat = true →
  layer_matches (Route "POST" pat [CsrfProtection; h]) req = true →
  status r = Going Normal → NODE_ENV env ≠ Some "test" →
  csrfTokenValid co req (session r) = false →
  step env co req r (Route "POST" pat [CsrfProtection; h])
    = record (Handler CsrfProtection) (NextErr (invalidCsrfToken co), session r) r.
Proof.
  intros Hlit Hmatch Hst Htest Htoken.
  rewrite step_normal, Hmatch by (done || by apply decode_failure_literal).
  apply route_layer_verb, verb_matches_post in Hmatch.
  unfold run_chain. cbn [fold_left].
  rewrite (invoke_normal _ _ _ CsrfProtection r) by done.
  cbn [run_handler]. rewrite csrfProtection_rejects by done.
  by rewrite invoke_not_normal.
Qed.

Lemma app_layers_NoDup b : NoDup (app_layers b).
Proof. destruct b; compute_done. Qed.

Lemma forgery_guarded_once b h l1 l2 :
  h ∈ forgery_guarded →
  l1 ∈ layers_with (Ext h) (app_layers b) → l2 ∈ layers_with (Ext h) (app_layers b) →
  l1 = l2.
Proof. intros Hh H1 H2. destruct b; enumerate Hh; enumerate H1; by enumerate H2. Qed.

(** A handler behind the guard stands in one layer, so that it runs
    from that layer or not at all. *)
Lemma forgery_guarded_elsewhere b pre l post h others :
  app_layers b = pre ++ l :: post → h ∈ forgery_guarded → Ext h ∈ layer_handlers l →
  others = pre ∨ others = post →
  ¬ from_layers req others (Handler (Ext h)).
Proof.
  intros Happ Hh Hl Hothers (l' & Hl' & Hh' & _).
  assert (l ∈ layers_with (Ext h) (app_layers b)) as Hin.
  { apply list_elem_of_filter. split; [done|]. rewrite Happ.
    apply elem_of_app. right. left. }
  assert (l' ∈ layers_with (Ext h) (app_layers b)) as Hin'.
  { apply list_elem_of_filter. split; [done|]. rewrite Happ.
    destruct Hothers as [-> | ->]; apply elem_of_app; [by left|right; by right]. }
  assert (l' = l) as -> by (by apply (forgery_guarded_once b h)).
  pose proof (app_layers_NoDup b) as Hnodup. rewrite Happ in Hnodup.
  apply NoDup_app in Hnodup as (_ & Hpre & Hpost).
  destruct Hothers as [-> | ->].
  - apply (Hpre l); [done|left].
  - apply NoDup_cons in Hpost as [Hpost _]. done.
Qed.

(** C2, amended: a state-changing request to a tenant-bound
    configuration route (DELETE /jira/configuration, POST /jira/sync)
    never passes through the anti-forgery guard; the handler of such a
    route runs only directly after the tracker-token verifier has called
    [next()].  The guard stands directly before the handlers of the POST
    routes under /github; outside the test configuration it fails every
    POST request whose token does not verify against the session it is
    given, whatever other session the token may verify against; and a
    request that comes to such a route with a token that does not verify
    against its session is failed there with the guard's error, its
    handler running neither there nor anywhere else in the run. *)
Theorem forgery_guard_covers_github_posts_only (s : Session) :
  let r := dispatch env co req s in
  (∀ route, route ∈ tenant_mutations → targets route req → ¬ ran CsrfProtection r) ∧
  (∀ h, h ∈ tenant_mutation_handlers →
     guarded (Ext VerifyJiraMiddleware) (Ext h) (trace r)) ∧
  (∀ h, h ∈ forgery_guarded → guarded CsrfProtection (Ext h) (trace r)) ∧
  (NODE_ENV env ≠ Some "test" → method req = "POST" →
   ∀ s', csrfTokenValid co req s' = false →
         csrfProtection env co req s' = (NextErr (invalidCsrfToken co), s')) ∧
  (∀ pre l post h,
     app_stack env = pre ++ l :: post →
     h ∈ forgery_guarded → Ext h ∈ layer_handlers l → layer_matches l req = true →
     let at_route := walk env co req pre (start s) in
     status at_route = Going Normal →
     NODE_ENV env ≠ Some "test" →
     csrfTokenValid co req (session at_route) = false →
     step env co req at_route l
       = record (Handler CsrfProtection)
                (NextErr (invalidCsrfToken co), session at_route) at_route ∧
     ¬ ran (Ext h) r).
Proof.
  cbn zeta. unfold dispatch, app_stack. generalize (boom_enabled env) as b. intros b.
  split; [|split; [|split; [|split]]].
  - intros route. apply tenant_mutations_unguarded.
  - intros h Hh.
    apply walk_guard; [by apply tenant_mutation_handlers_check|apply guarded_nil].
  - intros h Hh. apply walk_guard; [by apply forgery_guarded_check|apply guarded_nil].
  - intros Htest Hm s'. by apply csrfProtection_rejects.
  - intros pre l post h Happ Hh Hl Hmatch Hst Htest Htoken.
    set (r0 := walk env co req pre (start s)) in *.
    assert (step env co req r0 l
              = record (Handler CsrfProtection) (NextErr (invalidCsrfToken co), session r0) r0)
      as Hstep.
    { assert (l ∈ layers_with (Ext h) (app_layers b)) as Hin.
      { apply list_elem_of_filter. split; [done|]. rewrite Happ.
        apply elem_of_app. right. left. }
      clear Happ. destruct b; enumerate Hh; enumerate Hin; by apply guarded_post_fails. }
    split; [done|].
    rewrite Happ, walk_app, walk_cons. fold r0. rewrite Hstep.
    destruct (walk_trace_ext env co req pre (start s)) as (evsP & HP & HfromP).
    fold r0 in HP. cbn [start trace app] in HP.
    destruct (walk_trace_ext env co req post
                (record (Handler CsrfProtection) (NextErr (invalidCsrfToken co), session r0) r0))
      as (evsF & HF & HfromF).
    unfold ran, actors. rewrite HF. cbn [record trace]. rewrite HP.
    rewrite !fmap_app, !elem_of_app.
    intros [[Hran|Hran]|Hran].
    + apply list_elem_of_fmap in Hran as (ev & Hactor & Hev). apply HfromP in Hev.
      rewrite <- Hactor in Hev.
      by apply (forgery_guarded_elsewhere b pre l post h pre) in Hev; [|done..|left].
    + apply list_elem_of_singleton in Hran. discriminate Hran.
    + apply list_elem_of_fmap in Hran as (ev & Hactor & Hev). apply HfromF in Hev.
      rewrite <- Hactor in Hev.
      by apply (forgery_guarded_elsewhere b pre l post h post) in Hev; [|done..|right].
Qed.

End ForgeryRoutes.

Lemma forgery_guard_covers_github_posts_only_witness :
  let req := Sample.request "POST" "/github/setup" in
  csrfTokenValid co_other_session req (Sample.bound_to "https://other.atlassian.net") = true ∧
  ¬ ran (Ext PostGitHubSetup)
      (dispatch Sample.env_default co_other_session req
                (Sample.bound_to "https://acme.atlassian.net")) ∧
  ¬ ran CsrfProtection
      (dispatch Sample.env_default Sample.co_pass
                (Sample.request "POST" "/jira/sync") Sample.no_session).
Proof.
  cbn zeta. split; [reflexivity|]. split.
  - destruct (forgery_guard_covers_github_posts_only
                Sample.env_default co_other_session
                (Sample.request "POST" "/github/setup")
                (Sample.bound_to "https://acme.atlassian.net")) as (_ & _ & _ & _ & Hfail).
    apply (Hfail (take 16 (app_stack Sample.env_default))
                 (Route "POST" "/github/setup" [CsrfProtection; Ext PostGitHubSetup])
                 (drop 17 (app_stack Sample.env_default)) PostGitHubSetup).
    + reflexivity.
    + left.
    + right. left.
    + reflexivity.
    + reflexivity.
    + discriminate.
    + reflexivity.
  - apply (proj1 (forgery_guard_covers_github_posts_only
                    Sample.env_default Sample.co_pass
                    (Sample.request "POST" "/jira/sync") Sample.no_session)
                 ("POST", "/jira/sync")).
    + right. left.
    + split; reflexivity.
Defined.

(* ===================================================================== *)
(** ** The maintenance gate (line 112) *)
(* ===================================================================== *)

Section Maintenance.

Variable env : Env.
Variable co : Collaborators.
Variable req : Request.

Lemma err_handler_never_resumes h e s :
  forwards_errors co → (run_err_handler env co h e req s).1 ≠ Next.
Proof.
  intros Hfw. destruct h; cbn [run_err_handler].
  - done.
  - by rewrite Hfw.
  - unfold catchErrors. by repeat case_match.
Qed.

(** Once a request is answered or failing, no route handler runs. *)
Lemma walk_off_road ls r :
  forwards_errors co → status r ≠ Going Normal →
  status (walk env co req ls r) ≠ Going Normal ∧
  ∀ h, ran h (walk env co req ls r) → ran h r.
Proof.
  intros Hfw Hst.
  apply (walk_inv env co req
           (λ r', status r' ≠ Going Normal ∧ ∀ h, ran h r' → ran h r)).
  - done.
  - intros l h r' _ _ _ Hn [Hc _]. done.
  - intros h e r' _ _ [_ IH]. split.
    + cbn [record status].
      pose proof (err_handler_never_resumes h e (session r') Hfw) as Hne.
      by destruct (run_err_handler env co h e req (session r')).1.
    + intros h'. unfold ran, actors. cbn [record trace].
      rewrite fmap_app, elem_of_app. intros [Hin|Hin]; [by apply IH|].
      by apply list_elem_of_singleton in Hin.
  - intros l e r' _ _ Hn [Hc _]. done.
Qed.

Lemma gate_closes r :
  isMaintenanceMode env = true →
  status (step env co req r gate) ≠ Going Normal ∧
  ∀ h, ran h (step env co req r gate) → ran h r ∨ h = MaintenanceGate.
Proof.
  intros Hon. unfold step, gate.
  destruct (status r) as [[|e]|f] eqn:Hst; cbn [decode_failure layer_matches].
  - unfold invoke. rewrite Hst. cbn [run_handler]. unfold maintenanceGate. rewrite Hon.
    destruct (getMaintenance co req (session r)) as [t s']. split.
    + cbn [record status fst]. by destruct t.
    + intros h. unfold ran, actors. cbn [record trace].
      rewrite fmap_app, elem_of_app. intros [Hin|Hin]; [by left|].
      apply list_elem_of_singleton in Hin. right. cbn in Hin. congruence.
  - rewrite Hst. split; [done|]. intros h. by left.
  - rewrite Hst. split; [done|]. intros h. by left.
Qed.

Lemma ran_under_maintenance b s h :
  isMaintenanceMode env = true → forwards_errors co →
  ran h (walk env co req (app_layers b) (start s)) →
  h ∈ handlers_of before_gate ∨ h = MaintenanceGate.
Proof.
  intros Hon Hfw. unfold app_layers. rewrite walk_app, walk_cons.
  set (r1 := walk env co req before_gate (start s)).
  destruct (gate_closes r1 Hon) as [Hst Hgate].
  intros Hran. apply walk_off_road in Hran; [|done|done].
  apply Hgate in Hran as [Hran|Hran]; [|by right]. left.
  apply walk_actors in Hran as [Hran|(l & Hl & Hh & _)]; [by apply ran_start in Hran|].
  apply list_elem_of_bind. eauto.
Qed.

Lemma gated_apart b :
  Forall (λ h, (h ∉ handlers_of before_gate) ∧ h ≠ MaintenanceGate) (gated_handlers b).
Proof. destruct b; compute_done. Qed.

(** C1, as stated, fails: with the maintenance flag set, the connect
    descriptor route and the admin API mount still answer themselves. *)
Lemma maintenance_spares_descriptor_and_api :
  isMaintenanceMode Sample.env_maintenance = true ∧
  outcome Sample.env_maintenance Sample.co_pass
          (Sample.request "GET" "/jira/atlassian-connect.json") Sample.no_session
    = Answered (Handler (Ext GetJiraConnect)) (Reply 200 "ok") ∧
  outcome Sample.env_maintenance Sample.co_pass
          (Sample.request "POST" "/api/installations") Sample.no_session
    = Answered (Handler (Ext Api)) (Reply 200 "ok").
Proof. repeat split; vm_compute; reflexivity. Qed.

(** C1, amended: when the maintenance flag is set (and Sentry's error
    handler passes errors on), no handler of a route registered behind
    the gate runs, whatever the request and whatever trust checks it
    would pass: a request that comes to the gate is handed to the
    maintenance handler, whose reply is the response.  Replies by handlers
    are then replies of a layer registered ahead of the gate (static
    assets, the GitHub client middleware, the admin API mount, the connect
    descriptor route) or the maintenance reply. *)
Theorem maintenance_shields_routes_behind_gate (s : Session) :
  isMaintenanceMode env = true → forwards_errors co →
  let r := dispatch env co req s in
  let at_gate := walk env co req before_gate (start s) in
  (∀ h, h ∈ gated_handlers (boom_enabled env) → ¬ ran h r) ∧
  (∀ resp s', status at_gate = Going Normal →
     getMaintenance co req (session at_gate) = (TRespond resp, s') →
     finish r = Answered (Handler MaintenanceGate) resp) ∧
  (∀ h resp, finish r = Answered (Handler h) resp →
     h ∈ handlers_of before_gate ∨
     (h = MaintenanceGate ∧ ∃ s1 s2, getMaintenance co req s1 = (TRespond resp, s2))).
Proof.
  intros Hon Hfw. cbn zeta. unfold dispatch, app_stack.
  generalize (boom_enabled env) as b. intros b.
  split; [|split].
  - intros h Hh Hran. apply (ran_under_maintenance b s h Hon Hfw) in Hran.
    pose proof (gated_apart b) as Hapart. rewrite Forall_forall in Hapart.
    destruct (Hapart h Hh) as [Hout Hne]. by destruct Hran.
  - intros resp s' Hst Hget. unfold app_layers. rewrite walk_app, walk_cons.
    set (r1 := walk env co req before_gate (start s)) in *.
    assert (status (step env co req r1 gate)
              = Done (Answered (Handler MaintenanceGate) resp)) as Hdone.
    { unfold step, gate. rewrite Hst. cbn [decode_failure layer_matches].
      unfold invoke. rewrite Hst.
      cbn [run_handler]. unfold maintenanceGate. by rewrite Hon, Hget. }
    rewrite (walk_done _ _ _ _ _ _ Hdone). unfold finish. by rewrite Hdone.
  - intros h resp Hfin.
    set (r := walk env co req (app_layers b) (start s)) in *.
    assert (status r = Done (Answered (Handler h) resp)) as Hst.
    { unfold finish in Hfin. destruct (status r) as [[|e]|f]; congruence. }
    apply walk_answered in Hst as [Hst|Hev]; [done|]. fold r in Hev.
    assert (ran h r) as Hran.
    { unfold ran, actors. apply list_elem_of_fmap. eexists. split; [|exact Hev]. done. }
    apply (ran_under_maintenance b s h Hon Hfw) in Hran as [Hran| ->]; [by left|].
    right. split; [done|].
    apply walk_sound in Hev as [Hev|Hev]; [by apply elem_of_nil in Hev|].
    red in Hev. cbn in Hev. destruct Hev as [s1 Hs1].
    unfold maintenanceGate in Hs1. rewrite Hon in Hs1.
    destruct (getMaintenance co req s1) as [t s2] eqn:Hget. cbn in Hs1.
    destruct t; try done. injection Hs1 as ->. eauto.
Qed.

End Maintenance.

Lemma sample_collaborators_forward_errors : forwards_errors Sample.co_pass.
Proof. intros e req s. reflexivity. Qed.

Lemma maintenance_shields_routes_behind_gate_witness :
  let r := dispatch Sample.env_maintenance Sample.co_pass
                    (Sample.request "GET" "/github/setup") Sample.no_session in
  ¬ ran (Ext GetGitHubSetup) r ∧
  finish r = Answered (Handler MaintenanceGate) Sample.maintenance_page.
Proof.
  destruct (maintenance_shields_routes_behind_gate
              Sample.env_maintenance Sample.co_pass
              (Sample.request "GET" "/github/setup") Sample.no_session
              eq_refl sample_collaborators_forward_errors) as (Hshield & Hreply & _).
  split.
  - apply Hshield. vm_compute. do 4 right. left.
  - apply (Hreply Sample.maintenance_page Sample.no_session); reflexivity.
Defined.

(* ===================================================================== *)
(** ** The routes behind the OAuth guard (lines 115-121) *)
(* ===================================================================== *)

Section GitHubSessionRoutes.

Variable env : Env.
Variable co : Collaborators.
Variable t : Tenants.
Variable req : Request.

Lemma csrf_exempt_get :
  verb_matches "GET" (method req) = true → csrf_exempt env (method req) = true.
Proof.
  unfold verb_matches. intros [Hm|[_ Hm]%andb_prop]%orb_prop;
    apply bool_decide_eq_true in Hm; [rewrite <- Hm|rewrite Hm];
    unfold csrf_exempt, ignoreMethods, csrfOptions;
    by destruct (node_env_is env "test").
Qed.

Lemma checkGithubAuth_redirects s :
  as_specified t co → has_live_grant s = false →
  external co CheckGithubAuth req s = (Respond (Redirect loginURI), s).
Proof.
  intros Hspec Hgrant. rewrite (Hspec GitHubSession). cbn [verifier].
  unfold checkGithubAuth. by rewrite Hgrant.
Qed.

Lemma github_route_redirects verb pat h r :
  as_specified t co → Path.literal pat = true →
  layer_matches (Route verb pat [CsrfProtection; Ext CheckGithubAuth; h]) req = true →
  verb = "GET" →
  status r = Going Normal → has_live_grant (session r) = false →
  let r' := step env co req r (Route verb pat [CsrfProtection; Ext CheckGithubAuth; h]) in
  finish r' = Answered (Handler (Ext CheckGithubAuth)) (Redirect loginURI) ∧
  actors r' = actors r ++ [Handler CsrfProtection; Handler (Ext CheckGithubAuth)].
Proof.
  intros Hspec Hlit Hmatch -> Hst Hgrant. cbn zeta.
  rewrite step_normal, Hmatch by (done || by apply decode_failure_literal).
  apply route_layer_verb in Hmatch. apply csrf_exempt_get in Hmatch.
  unfold run_chain. cbn [fold_left].
  rewrite (invoke_normal _ _ _ CsrfProtection r) by done.
  cbn [run_handler]. rewrite csrfProtection_exempt by done.
  set (r1 := record (Handler CsrfProtection) (Next, session r) r).
  rewrite (invoke_normal _ _ _ (Ext CheckGithubAuth) r1) by done.
  cbn [run_handler]. change (session r1) with (session r).
  rewrite checkGithubAuth_redirects by done.
  rewrite invoke_not_normal by done.
  unfold finish, actors. cbn [record status after trace fst]. split; [done|].
  unfold r1. cbn [record trace]. by rewrite !fmap_app, <- app_assoc.
Qed.

(** C7: on every route of the application that stands behind the OAuth
    guard (the GET routes /github/setup, /github/configuration and
    /github/installations), a request that comes to the route with a
    session lacking a valid, non-expired grant is answered by the guard
    with a redirect to the login entry point, the route's handler not
    being run; in a walk of the application the guard never raises an
    error; and of the three verifiers of the trust gate only this one
    fails by a redirect, the two others by raising an error. *)
Theorem github_session_failure_is_a_redirect (s : Session) (r : Run) (l : Layer) :
  as_specified t co →
  (l ∈ app_stack env → Ext CheckGithubAuth ∈ layer_handlers l →
   layer_matches l req = true →
   status r = Going Normal → has_live_grant (session r) = false →
   finish (step env co req r l)
     = Answered (Handler (Ext CheckGithubAuth)) (Redirect loginURI) ∧
   actors (step env co req r l)
     = actors r ++ [Handler CsrfProtection; Handler (Ext CheckGithubAuth)]) ∧
  layers_with (Ext CheckGithubAuth) (app_stack env)
    = [Route "GET" "/github/setup"
             [CsrfProtection; Ext CheckGithubAuth; Ext GetGitHubSetup];
       Route "GET" "/github/configuration"
             [CsrfProtection; Ext CheckGithubAuth; Ext GetGitHubConfiguration];
       Route "GET" "/github/installations"
             [CsrfProtection; Ext CheckGithubAuth; Ext ListGitHubInstallations]] ∧
  (∀ ev, ev ∈ trace (dispatch env co req s) →
     ev_actor ev = Handler (Ext CheckGithubAuth) →
     ev_signal ev = Next ∨ ev_signal ev = Respond (Redirect loginURI)) ∧
  (∀ d, (external co (guard_of d) req s).1 ≠ Next →
     (is_redirect (external co (guard_of d) req s).1 = true ↔ d = GitHubSession) ∧
     (d ≠ GitHubSession → is_error (external co (guard_of d) req s).1 = true)).
Proof.
  intros Hspec. split; [|split; [|split]].
  - unfold app_stack. generalize (boom_enabled env) as b. intros b Hl Hh Hmatch Hst Hgrant.
    assert (l ∈ layers_with (Ext CheckGithubAuth) (app_layers b)) as Hin
      by (by apply list_elem_of_filter).
    destruct b; enumerate Hin; by apply github_route_redirects.
  - unfold app_stack. by destruct (boom_enabled env).
  - intros ev [Hev|Hev]%walk_sound Hactor; [by apply elem_of_nil in Hev|].
    red in Hev. rewrite Hactor in Hev. destruct Hev as [s' ->].
    cbn [run_handler]. rewrite (Hspec GitHubSession). cbn [verifier].
    unfold checkGithubAuth. destruct (has_live_grant s'); [by left|by right].
  - intros d. rewrite (Hspec d).
    destruct d; cbn [verifier guard_of].
    + unfold checkGithubAuth. destruct (has_live_grant s); cbn; [done|].
      intros _. split; [done|]. done.
    + unfold jiraAuthenticate.
      destruct (records t !! payload_host t req) as [rec|]; cbn.
      * destruct (proves_secret t (sharedSecret rec) req); cbn; [done|].
        intros _. split; [|done]. split; done.
      * intros _. split; [|done]. split; done.
    + unfold verifyJiraMiddleware. destruct (jiraHost s); cbn; [done|].
      intros _. split; [|done]. split; done.
Qed.

End GitHubSessionRoutes.

Lemma sample_collaborators_as_specified : as_specified Sample.tenants Sample.co_specified.
Proof. intros d req s. by destruct d. Qed.

Lemma github_session_failure_is_a_redirect_witness :
  let req := Sample.request "GET" "/github/configuration" in
  let l := Route "GET" "/github/configuration"
                 [CsrfProtection; Ext CheckGithubAuth; Ext GetGitHubConfiguration] in
  finish (step Sample.env_default Sample.co_specified req (start Sample.no_session) l)
    = Answered (Handler (Ext CheckGithubAuth)) (Redirect "/github/login") ∧
  is_error (external Sample.co_specified VerifyJiraMiddleware req Sample.no_session).1 = true.
Proof.
  cbn zeta.
  destruct (github_session_failure_is_a_redirect
              Sample.env_default Sample.co_specified Sample.tenants
              (Sample.request "GET" "/github/configuration") Sample.no_session
              (start Sample.no_session)
              (Route "GET" "/github/configuration"
                     [CsrfProtection; Ext CheckGithubAuth; Ext GetGitHubConfiguration])
              sample_collaborators_as_specified) as (Hroute & _ & _ & Honly).
  split.
  - apply Hroute; try reflexivity.
    + vm_compute. do 17 right. left.
    + right. left.
  - apply (Honly TrackerSessionBound); discriminate.
Defined.

(** The same request against the whole application. *)
Example github_setup_without_grant :
  outcome Sample.env_default Sample.co_specified
          (Sample.request "GET" "/github/setup") Sample.no_session
    = Answered (Handler (Ext CheckGithubAuth)) (Redirect "/github/login").
Proof. vm_compute. reflexivity. Qed.

(* ===================================================================== *)
(** ** The template helpers (lines 85-88) *)
(* ===================================================================== *)

Section Helpers.

Lemma replaceSpaceWithHyphen_length str :
  String.length (replaceSpaceWithHyphen str) = String.length str.
Proof. induction str as [|c rest IH]; cbn; [done|]. by rewrite IH. Qed.

Lemma replaceSpaceWithHyphen_no_space str :
  occurs " " (replaceSpaceWithHyphen str) = false.
Proof.
  induction str as [|c rest IH]; cbn; [done|]. rewrite IH.
  destruct (decide (c = " "%char)) as [->|Hc]; [done|].
  rewrite (bool_decide_eq_false_2 (c = " "%char)) by done.
  by rewrite bool_decide_eq_false_2.
Qed.

Lemma replaceSpaceWithHyphen_get str i :
  String.get i (replaceSpaceWithHyphen str)
    = (λ c : ascii, if bool_decide (c = " "%char) then "-"%char else c) <$> String.get i str.
Proof.
  revert i. induction str as [|c rest IH]; intros i; cbn; [done|].
  destruct i as [|i]; [done|]. apply IH.
Qed.

Lemma replaceSpaceWithHyphen_id str :
  occurs " " str = false → replaceSpaceWithHyphen str = str.
Proof.
  induction str as [|c rest IH]; cbn; [done|].
  intros [Hc Hrest]%orb_false_elim. rewrite IH by done.
  by rewrite Hc.
Qed.

(** X1: the helper [replaceSpaceWithHyphen] leaves no space in its
    result, keeps the length, puts a hyphen exactly where a space stood
    and keeps every other character in its place; a text without spaces,
    its own results among them, comes back unchanged; and the result of a
    concatenation is the concatenation of the results. *)
Theorem replaceSpaceWithHyphen_spec (str more : string) :
  occurs " " (replaceSpaceWithHyphen str) = false ∧
  String.length (replaceSpaceWithHyphen str) = String.length str ∧
  (∀ i c, String.get i str = Some c →
     String.get i (replaceSpaceWithHyphen str)
       = Some (if bool_decide (c = " "%char) then "-"%char else c)) ∧
  (replaceSpaceWithHyphen str = str ↔ occurs " " str = false) ∧
  replaceSpaceWithHyphen (replaceSpaceWithHyphen str) = replaceSpaceWithHyphen str ∧
  replaceSpaceWithHyphen (str +:+ more)
    = replaceSpaceWithHyphen str +:+ replaceSpaceWithHyphen more.
Proof.
  split; [apply replaceSpaceWithHyphen_no_space|].
  split; [apply replaceSpaceWithHyphen_length|].
  split; [|split; [|split]].
  - intros i c Hi. by rewrite replaceSpaceWithHyphen_get, Hi.
  - split; [|apply replaceSpaceWithHyphen_id].
    intros Heq. rewrite <- Heq. apply replaceSpaceWithHyphen_no_space.
  - apply replaceSpaceWithHyphen_id, replaceSpaceWithHyphen_no_space.
  - induction str as [|c rest IH]; [done|].
    change (String c rest +:+ more) with (String c (rest +:+ more)).
    cbn [replaceSpaceWithHyphen]. rewrite IH. done.
Qed.

Lemma replaceSpaceWithHyphen_spec_witness :
  replaceSpaceWithHyphen "all repos synced" = "all-repos-synced" ∧
  String.get 3 (replaceSpaceWithHyphen "all repos synced") = Some "-"%char.
Proof.
  split; [reflexivity|].
  destruct (replaceSpaceWithHyphen_spec "all repos synced" "") as (_ & _ & Hget & _).
  exact (Hget 3 " "%char eq_refl).
Defined.

Lemma pretty_N_char_no_space d : pretty_N_char d ≠ " "%char.
Proof. unfold pretty_N_char. by repeat case_match. Qed.

Lemma pretty_N_go_no_space x str :
  occurs " " str = false → occurs " " (pretty_N_go x str) = false.
Proof.
  revert str. induction (N.lt_wf_0 x) as [x _ IH]; intros str Hstr.
  destruct (decide (x = 0%N)) as [->|Hx]; [by rewrite pretty_N_go_0|].
  rewrite pretty_N_go_step by lia. apply IH.
  - apply N.div_lt; lia.
  - cbn. rewrite Hstr, bool_decide_eq_false_2; [done|apply pretty_N_char_no_space].
Qed.

Lemma pretty_N_no_space (n : N) : occurs " " (pretty n) = false.
Proof.
  unfold pretty, pretty_N. case_decide; [done|]. by apply pretty_N_go_no_space.
Qed.

(** Two texts that agree, each cut at its first space, agree on both
    sides of the cut. *)
Lemma cut_at_space a a' t t' :
  occurs " " a = false → occurs " " a' = false →
  a +:+ String " " t = a' +:+ String " " t' → a = a' ∧ t = t'.
Proof.
  revert a'. induction a as [|c a IH]; intros [|c' a']; cbn.
  - intros _ _ [= ->]. done.
  - intros _ [Hc' _]%orb_false_elim [= <- _]. by apply bool_decide_eq_false in Hc'.
  - intros [Hc _]%orb_false_elim _ [= -> _]. by apply bool_decide_eq_false in Hc.
  - intros [_ Ha]%orb_false_elim [_ Ha']%orb_false_elim [= -> Heq].
    destruct (IH a' Ha Ha' Heq) as [-> ->]. done.
Qed.

Lemma progress_text_inj (a b a' b' : N) :
  pretty a +:+ " / " +:+ pretty b = pretty a' +:+ " / " +:+ pretty b' →
  a = a' ∧ b = b'.
Proof.
  intros Heq.
  apply (cut_at_space (pretty a) (pretty a')) in Heq as [Ha Hb];
    [|apply pretty_N_no_space..].
  injection Hb as Hb. split; by apply (inj pretty).
Qed.

(** X2: on repository counts, the helper [ifAllReposSynced] hands back
    the bare total exactly when the two counts are equal, and otherwise a
    text that reads "synced / total"; what it hands back determines both
    counts. *)
Theorem ifAllReposSynced_spec (synced total synced' total' : N) :
  safe_count synced → safe_count total → safe_count synced' → safe_count total' →
  (ifAllReposSynced synced total = ShownNumber total ↔ synced = total) ∧
  (synced ≠ total →
     ifAllReposSynced synced total = ShownText (pretty synced +:+ " / " +:+ pretty total)) ∧
  (ifAllReposSynced synced total = ifAllReposSynced synced' total' →
     synced = synced' ∧ total = total').
Proof.
  intros _ _ _ _. unfold ifAllReposSynced. split; [|split].
  - case_decide; [done|]. split; [discriminate|done].
  - intros Hne. by rewrite decide_False.
  - repeat case_decide; intros Heq; try discriminate Heq.
    + injection Heq as ->. by subst.
    + injection Heq as Heq. by apply progress_text_inj.
Qed.

Lemma ifAllReposSynced_spec_witness :
  ifAllReposSynced 3 12 = ShownText "3 / 12" ∧
  (ifAllReposSynced 12 12 = ShownNumber 12 ↔ 12 = 12)%N.
Proof.
  destruct (ifAllReposSynced_spec 3 12 12 12) as (_ & Htext & _);
    [reflexivity..|].
  destruct (ifAllReposSynced_spec 12 12 3 12) as (Hnumber & _);
    [reflexivity..|].
  split; [|exact Hnumber].
  apply Htext. discriminate.
Defined.

End Helpers.

(* ===================================================================== *)
(** ** The order of registration is the order of execution *)
(* ===================================================================== *)

Section Order.

Variable env : Env.
Variable co : Collaborators.
Variable req : Request.

(** A middleware mounted with [app.use] that has let a request through. *)
Lemma use_passed r m h :
  layer_matches (Use m h) req = true →
  status (step env co req r (Use m h)) = Going Normal →
  status r = Going Normal ∧
  trace (step env co req r (Use m h))
    = trace r ++ [{| ev_actor := Handler h; ev_signal := Next |}].
Proof.
  intros Hm Hst.
  assert (status r = Going Normal) as Hr.
  { destruct (status r) as [[|e]|f] eqn:Hr; [done|..];
      rewrite step_stuck in Hst by (done || by rewrite Hr); congruence. }
  split; [done|]. revert Hst. rewrite step_use, Hm by done. unfold invoke. rewrite Hr.
  cbn [record status trace].
  by destruct (run_handler env co h req (session r)).1.
Qed.

(** A handler registered further down runs only after a middleware
    registered further up, on a mount point that takes its requests as
    well, has called [next()]. *)
Lemma use_precedes normal post k m h h2 s :
  forallb is_normal normal = true → normal !! k = Some (Use m h) →
  h2 ∉ handlers_of (take k normal) → h2 ≠ h → h2 ∉ handlers_of post →
  (∀ l, l ∈ drop (S k) normal → h2 ∈ layer_handlers l →
        layer_matches l req = true → layer_matches (Use m h) req = true) →
  precedes h h2 (trace (walk env co req (normal ++ post) (start s))).
Proof.
  intros Hnormal Hk Hpre Hne Hpost Hmount.
  rewrite <- (take_drop_middle normal k (Use m h)) in Hnormal |- * by done.
  set (pre := take k normal) in *. set (mid := drop (S k) normal) in *.
  rewrite <- app_assoc, walk_app. cbn [app]. rewrite walk_cons, walk_app.
  set (rP := walk env co req pre (start s)).
  set (rA := step env co req rP (Use m h)).
  set (rM := walk env co req mid rA).
  rewrite forallb_app in Hnormal. apply andb_prop in Hnormal as [_ Hmid].
  cbn [forallb] in Hmid. apply andb_prop in Hmid as [_ Hmid].
  destruct (walk_trace_ext env co req post rM) as (evsF & HF & HfromF).
  destruct (walk_trace_ext env co req mid rA) as (evsM & HM & HfromM). fold rM in HM.
  destruct (walk_trace_ext env co req pre (start s)) as (evsP & HP & HfromP). fold rP in HP.
  cbn [start trace app] in HP.
  destruct (walk_trace_ext env co req [Use m h] rP) as (evsA & HA & HfromA).
  change (walk env co req [Use m h] rP) with rA in HA.
  intros i sg Hi. rewrite HF in Hi.
  apply lookup_app_Some in Hi as [Hi|[_ Hi]].
  2:{ apply list_elem_of_lookup_2, HfromF, from_layers_handlers in Hi. done. }
  rewrite HM in Hi. apply lookup_app_Some in Hi as [Hi|[Hlen Hi]].
  { rewrite HA in Hi. apply list_elem_of_lookup_2, elem_of_app in Hi as [Hi|Hi].
    - rewrite HP in Hi. apply HfromP, from_layers_handlers in Hi. done.
    - apply HfromA in Hi. destruct Hi as (l & Hl & Hh & _).
      apply list_elem_of_singleton in Hl. subst l.
      apply list_elem_of_singleton in Hh. done. }
  assert (status rA = Going Normal) as HstA.
  { destruct (status rA) as [[|e]|f] eqn:Hst; [done|..];
      (assert (rM = rA) as Heq by (apply walk_stuck; [by rewrite Hst|done]));
      rewrite Heq in HM; apply (f_equal length) in HM;
      rewrite length_app in HM; (assert (evsM = []) as -> by (apply nil_length_inv; lia));
      by rewrite lookup_nil in Hi. }
  assert (layer_matches (Use m h) req = true) as Huse.
  { apply list_elem_of_lookup_2 in Hi as Hin. apply HfromM in Hin.
    destruct Hin as (l & Hl & Hh & Hl_m). by apply (Hmount l). }
  destruct (use_passed rP m h Huse HstA) as [_ Htr]. fold rA in Htr.
  exists (length (trace rP)). split.
  - rewrite Htr, length_app in Hlen. cbn in Hlen. lia.
  - rewrite HF, HM, Htr, <- !app_assoc. by rewrite lookup_app_r, Nat.sub_diag.
Qed.

Lemma app_layers_split b : app_layers b = normal_layers b ++ error_tail.
Proof. by destruct b. Qed.

Lemma normal_layers_normal b : forallb is_normal (normal_layers b) = true.
Proof. by destruct b. Qed.

Lemma routes_behind_globals b :
  Forall (λ h2, (h2 ∉ handlers_of (before_gate ++ [gate])) ∧ (h2 ∉ handlers_of error_tail))
         (handlers_of (routes ++ boom_routes b)).
Proof. destruct b; compute_done. Qed.

Lemma global_middleware_at h :
  h ∈ global_middlewares →
  ∃ k, k < length (before_gate ++ [gate]) ∧ (before_gate ++ [gate]) !! k = Some (Use None h).
Proof.
  intros Hh. enumerate Hh;
    [exists 0|exists 1|exists 2|exists 3|exists 4|exists 9|exists 10|exists 13];
    split; cbn; (lia || done).
Qed.

(** X3: every handler of a route (lines 113-163) runs only after each
    of the middlewares registered ahead of the routes for all requests
    (Sentry's request handler, the two body parsers, the session, the log
    middleware, the host binder, the GitHub client middleware and the
    maintenance gate) has run and called [next()]. *)
Theorem route_handlers_run_behind_global_middlewares (s : Session) (h h2 : HandlerId) :
  h ∈ global_middlewares →
  h2 ∈ handlers_of (routes ++ boom_routes (boom_enabled env)) →
  precedes h h2 (trace (dispatch env co req s)).
Proof.
  unfold dispatch, app_stack. generalize (boom_enabled env) as b. intros b Hh Hh2.
  destruct (global_middleware_at h Hh) as (k & Hk & Hlook).
  pose proof (routes_behind_globals b) as Hout. rewrite Forall_forall in Hout.
  destruct (Hout h2 Hh2) as [Hahead Htail].
  assert (normal_layers b = (before_gate ++ [gate]) ++ routes ++ boom_routes b) as Hshape
    by (unfold normal_layers; by rewrite <- app_assoc).
  rewrite app_layers_split. apply (use_precedes _ _ k None).
  - apply normal_layers_normal.
  - rewrite Hshape. by rewrite lookup_app_l.
  - rewrite Hshape, take_app_le by lia.
    intros Hin. apply Hahead. unfold handlers_of in *.
    apply list_elem_of_bind in Hin as (l & Hl & Hin). apply list_elem_of_bind.
    exists l. split; [done|]. apply elem_of_take in Hin as (i & Hi & _).
    by eapply list_elem_of_lookup_2.
  - intros ->. apply Hahead. apply list_elem_of_bind.
    exists (Use None h). split; [by left|]. by eapply list_elem_of_lookup_2.
  - done.
  - done.
Qed.

End Order.

Lemma route_handlers_run_behind_global_middlewares_witness :
  precedes JiraHostBinder (Ext RetrySync)
           (trace (dispatch Sample.env_default Sample.co_pass
                            (Sample.request "POST" "/jira/sync") Sample.no_session)).
Proof.
  apply (route_handlers_run_behind_global_middlewares
           Sample.env_default Sample.co_pass (Sample.request "POST" "/jira/sync")
           Sample.no_session JiraHostBinder (Ext RetrySync)).
  - do 5 right. left.
  - vm_compute. do 25 right. left.
Defined.

(* ===================================================================== *)
(** ** The static mounts (lines 90-93) *)
(* ===================================================================== *)

Section StaticMounts.

Variable env : Env.
Variable co : Collaborators.
Variable req : Request.

Lemma seg_prefix_shorter p1 p2 x :
  Path.seg_prefix (p1 ++ p2) x = true → Path.seg_prefix p1 x = true.
Proof.
  revert x. induction p1 as [|a p1 IH]; intros [|b x]; cbn; try done.
  intros [Hab Hrest]%andb_prop. rewrite Hab. by apply IH.
Qed.

(** A mount point under another takes only paths the other takes. *)
Lemma mount_nested outer inner p :
  (∃ deeper, Path.drop_trailing_slash (Path.segments inner)
             = Path.drop_trailing_slash (Path.segments outer) ++ deeper) →
  Path.mount_matches inner p = true → Path.mount_matches outer p = true.
Proof.
  unfold Path.mount_matches. intros [deeper ->]. apply seg_prefix_shorter.
Qed.

(** X4: the three vendor asset directories are mounted under /public,
    behind the application's own static directory: a request is offered
    to a vendor directory only after the application's directory has
    been offered it and has called [next()]. *)
Theorem vendor_assets_behind_own_assets (s : Session) (dir : string) :
  dir ∈ vendor_assets →
  precedes (Ext (Static "static")) (Ext (Static dir)) (trace (dispatch env co req s)).
Proof.
  intros Hdir. unfold dispatch, app_stack. generalize (boom_enabled env) as b. intros b.
  rewrite app_layers_split. apply (use_precedes env co req _ _ 5 (Some "/public")).
  - apply normal_layers_normal.
  - by destruct b.
  - enumerate Hdir; destruct b; compute_done.
  - enumerate Hdir; done.
  - enumerate Hdir; compute_done.
  - intros l Hl Hh Hm.
    assert (l ∈ layers_with (Ext (Static dir)) (drop 6 (normal_layers b))) as Hin
      by (by apply list_elem_of_filter).
    cbn [layer_matches] in *.
    enumerate Hdir; destruct b; enumerate Hin; cbn [layer_matches] in Hm;
      (eapply mount_nested; [|exact Hm]);
      match goal with
      | |- ∃ _, ?inner = _ => by exists (drop 2 inner)
      end.
Qed.

End StaticMounts.

Lemma vendor_assets_behind_own_assets_witness :
  precedes (Ext (Static "static")) (Ext (Static "node_modules/primer/build"))
           (trace (dispatch Sample.env_default Sample.co_pass
                            (Sample.request "GET" "/public/primer/build.css")
                            Sample.no_session)).
Proof.
  apply (vendor_assets_behind_own_assets
           Sample.env_default Sample.co_pass
           (Sample.request "GET" "/public/primer/build.css") Sample.no_session).
  right. left.
Defined.

(* ===================================================================== *)
(** ** The host a request is seen with (lines 96-101 and 141-154) *)
(* ===================================================================== *)

Section HostSeen.

Variable env : Env.
Variable co : Collaborators.
Variable req : Request.

(** Whether the binder has run decides the host of the session. *)
Lemma binder_decides_host ls s :
  keep_host co →
  let r := walk env co req ls (start s) in
  (ran JiraHostBinder r ∧ jiraHost (session r) = host_after req (jiraHost s)) ∨
  (¬ ran JiraHostBinder r ∧ jiraHost (session r) = jiraHost s).
Proof.
  intros Hco. cbn zeta.
  apply (walk_inv env co req
           (λ r, (ran JiraHostBinder r ∧ jiraHost (session r) = host_after req (jiraHost s)) ∨
                 (¬ ran JiraHostBinder r ∧ jiraHost (session r) = jiraHost s))).
  - right. split; [apply ran_start|done].
  - intros l h r' _ _ _ _ IH. unfold ran, actors. cbn [record trace session snd].
    rewrite fmap_app, run_handler_host by done. setoid_rewrite elem_of_app.
    case_decide as Hh.
    + subst h. left. split; [right; by left|].
      destruct IH as [[_ ->]|[_ ->]]; [apply host_after_idem|done].
    + destruct IH as [[Hran ->]|[Hran ->]]; [left|right]; (split; [|done]).
      * by left.
      * intros [Hin|Hin]; [done|]. apply list_elem_of_singleton in Hin.
        cbn in Hin. congruence.
  - intros h e r' _ _ IH. unfold ran, actors. cbn [record trace session snd].
    rewrite fmap_app, run_err_handler_host by done. setoid_rewrite elem_of_app.
    destruct IH as [[Hran ->]|[Hran ->]]; [left|right]; (split; [|done]).
    + by left.
    + intros [Hin|Hin]; [done|]. by apply list_elem_of_singleton in Hin.
  - intros l e r' _ _ _ IH. exact IH.
Qed.

Lemma ran_kept ls r h : ran h r → ran h (walk env co req ls r).
Proof.
  unfold ran, actors. destruct (walk_trace_ext env co req ls r) as (evs & -> & _).
  rewrite fmap_app, elem_of_app. by left.
Qed.

(** X5: provided the collaborators do not write the host themselves,
    whenever normal flow gets past the binder - to the GitHub client
    middleware, the admin API, the connect descriptor, the maintenance
    gate or any route - the session already holds the host the request
    names, if it names a truthy one, and the host it held before
    otherwise. *)
Theorem host_is_bound_before_anything_behind_binder (ls : list Layer) (s : Session) :
  keep_host co →
  ls `prefix_of` normal_layers (boom_enabled env) →
  Use None JiraHostBinder ∈ ls →
  status (walk env co req ls (start s)) = Going Normal →
  ran JiraHostBinder (walk env co req ls (start s)) ∧
  jiraHost (session (walk env co req ls (start s))) = host_after req (jiraHost s).
Proof.
  intros Hco [rest Hrest] Hin Hst.
  assert (forallb is_normal ls = true) as Hnormal.
  { pose proof (normal_layers_normal (boom_enabled env)) as Hall.
    rewrite Hrest, forallb_app in Hall. by apply andb_prop in Hall as [Hall _]. }
  assert (ran JiraHostBinder (walk env co req ls (start s))) as Hran.
  { apply list_elem_of_split in Hin as (l1 & l2 & ->).
    rewrite forallb_app in Hnormal. apply andb_prop in Hnormal as [_ Hnormal].
    cbn [forallb] in Hnormal. apply andb_prop in Hnormal as [_ Hl2].
    rewrite walk_app, walk_cons in Hst |- *.
    apply walk_normal_back in Hst; [|done].
    apply use_passed in Hst as [_ Htr]; [|done].
    apply ran_kept. unfold ran, actors. rewrite Htr, fmap_app, elem_of_app.
    right. by left. }
  split; [done|].
  destruct (binder_decides_host ls s Hco) as [[_ Hhost]|[Hnot _]]; done.
Qed.




End HostSeen.

Lemma host_is_bound_before_anything_behind_binder_witness :
  let req := Sample.request_for "GET" "/jira/configuration" (QStr "https://acme.atlassian.net") in
  jiraHost (session (walk Sample.env_default Sample.co_pass req (before_gate ++ [gate])
                          (start Sample.no_session)))
    = Some (QStr "https://acme.atlassian.net").
Proof.
  apply (host_is_bound_before_anything_behind_binder
           Sample.env_default Sample.co_pass
           (Sample.request_for "GET" "/jira/configuration" (QStr "https://acme.atlassian.net"))
           (before_gate ++ [gate]) Sample.no_session).
  - exact sample_collaborators_keep_host.
  - exists routes. reflexivity.
  - do 9 right. left.
  - reflexivity.
Defined.


(* ===================================================================== *)
(** ** The error path (lines 156-186) *)
(* ===================================================================== *)

Section ErrorPath.

Variable env : Env.
Variable co : Collaborators.
Variable req : Request.

Lemma catchErrors_development e s :
  NODE_ENV env = Some "development" → catchErrors env co e req s = (NextErr e, s).
Proof.
  intros Hdev. unfold catchErrors, node_env_is. by rewrite bool_decide_eq_true_2.
Qed.

Lemma walk_raised_development ls s h e :
  NODE_ENV env = Some "development" → forwards_errors co →
  {| ev_actor := Handler h; ev_signal := NextErr e |} ∈ trace (walk env co req ls (start s)) →
  status (walk env co req ls (start s)) = Going (Failing e).
Proof.
  intros Hdev Hfw. revert h e.
  apply (walk_inv env co req
           (λ r, ∀ h e, {| ev_actor := Handler h; ev_signal := NextErr e |} ∈ trace r →
                   status r = Going (Failing e))).
  - intros h e Hin. by apply elem_of_nil in Hin.
  - intros l h0 r' _ _ _ Hst IH h e. cbn [record trace status].
    rewrite elem_of_app. intros [Hin|Hin].
    + specialize (IH h e Hin). congruence.
    + apply list_elem_of_singleton in Hin. injection Hin as _ Hsg. by rewrite <- Hsg.
  - intros h0 e0 r' _ Hst IH h e. cbn [record trace status].
    rewrite elem_of_app. intros [Hin|Hin].
    2:{ apply list_elem_of_singleton in Hin. discriminate Hin. }
    specialize (IH h e Hin). rewrite Hst in IH. injection IH as ->.
    destruct h0; cbn [run_err_handler].
    + done.
    + by rewrite Hfw.
    + by rewrite catchErrors_development.
  - intros l e0 r' _ _ Hst IH h e Hin. specialize (IH h e Hin). congruence.
Qed.

Lemma outcome_raised_development s h e :
  NODE_ENV env = Some "development" → forwards_errors co →
  {| ev_actor := Handler h; ev_signal := NextErr e |} ∈ trace (dispatch env co req s) →
  outcome env co req s = Uncaught e.
Proof.
  intros Hdev Hfw Hin. unfold outcome, finish, dispatch in *.
  by rewrite (walk_raised_development (app_stack env) s h e Hdev Hfw Hin).
Qed.

(** X7: in development mode (Sentry's handler passing errors on), a
    request in which a handler raised an error is not answered by the
    application: the error leaves the stack as it was raised; and no
    request at all is answered with the error page. *)
Theorem development_surfaces_raised_errors (s : Session) (h : HandlerId) (e : Err) :
  NODE_ENV env = Some "development" →
  (forwards_errors co →
   {| ev_actor := Handler h; ev_signal := NextErr e |} ∈ trace (dispatch env co req s) →
   outcome env co req s = Uncaught e) ∧
  (∀ resp, outcome env co req s ≠ Answered (ErrHandler CatchErrors) resp).
Proof.
  intros Hdev. split.
  - intros Hfw Hin. by apply (outcome_raised_development s h).
  - intros resp Hout. unfold outcome, finish in Hout.
    destruct (status (dispatch env co req s)) as [[|e']|f] eqn:Hst; try done. subst f.
    apply walk_answered in Hst as [Hst|Hev]; [done|].
    apply walk_sound in Hev as [Hev|Hev]; [by apply elem_of_nil in Hev|].
    destruct Hev as (e' & s' & Hsg). cbn in Hsg.
    by rewrite catchErrors_development in Hsg.
Qed.

Lemma boom_needs_switch b s :
  ran Boom (walk env co req (app_layers b) (start s)) →
  b = true ∧ Path.key (path req) = Path.key "/boom".
Proof.
  intros (l & Hl & Hm)%ran_from_layer.
  destruct b; enumerate Hl; apply route_layer_pins in Hm as [_ Hkey]; done.
Qed.

(** X8: the /boom routes exist only under the debug switch
    ([EXCEPTION_DEBUG_MODE] set, or development mode): a run in which
    their handler runs is a run under the switch, for the path /boom, and
    (Sentry's handler passing errors on) it ends with the error page under
    status 400 outside development mode, and with the raised error leaving
    the stack in development mode. *)
Theorem boom_exercises_the_error_path (s : Session) :
  forwards_errors co →
  ran Boom (dispatch env co req s) →
  boom_enabled env = true ∧
  Path.key (path req) = Path.key "/boom" ∧
  outcome env co req s
    = if node_env_is env "development" then Uncaught boom_error
      else Answered (ErrHandler CatchErrors) (error_page 400).
Proof.
  intros Hfw Hran.
  destruct (boom_needs_switch (boom_enabled env) s Hran) as [Hon Hkey].
  split; [done|]. split; [done|].
  apply ran_event in Hran as (i & sg & Hi). apply list_elem_of_lookup_2 in Hi.
  assert (sg = NextErr boom_error) as ->.
  { apply walk_sound in Hi as Hev. destruct Hev as [Hev|Hev]; [by apply elem_of_nil in Hev|].
    red in Hev. cbn in Hev. by destruct Hev as [s' ->]. }
  unfold node_env_is. case_bool_decide as Hdev.
  - by apply (outcome_raised_development s Boom).
  - rewrite (outcome_raised env co req s Boom boom_error); [done..| |done].
    compute_done.
Qed.



End ErrorPath.

Lemma development_surfaces_raised_errors_witness :
  outcome (Sample.env_named "development") Sample.co_rejecting
          (Sample.request "POST" "/jira/sync") Sample.no_session
    = Uncaught Sample.unauthorized.
Proof.
  apply (development_surfaces_raised_errors
           (Sample.env_named "development") Sample.co_rejecting
           (Sample.request "POST" "/jira/sync") Sample.no_session
           (Ext VerifyJiraMiddleware) Sample.unauthorized).
  - reflexivity.
  - intros e req s. reflexivity.
  - vm_compute. do 8 right. left.
Defined.

Lemma boom_exercises_the_error_path_witness :
  let env := {| NODE_ENV := Some "production"; EXCEPTION_DEBUG_MODE := Some "1";
                isMaintenanceMode := false |} in
  outcome env Sample.co_pass (Sample.request "GET" "/boom") Sample.no_session
    = Answered (ErrHandler CatchErrors)
               (Render 400 "github-error.hbs" "GitHub + Jira integration").
Proof.
  apply (boom_exercises_the_error_path
           {| NODE_ENV := Some "production"; EXCEPTION_DEBUG_MODE := Some "1";
              isMaintenanceMode := false |}
           Sample.co_pass (Sample.request "GET" "/boom") Sample.no_session).
  - intros e req s. reflexivity.
  - vm_compute. do 8 right. left.
Defined.


(* ===================================================================== *)
(** ** The reach of the anti-forgery guard (lines 45-53, 113-125) *)
(* ===================================================================== *)

Section GuardReach.

Variable env : Env.
Variable co : Collaborators.
Variable req : Request.

(** The routes the guard stands on: a GET route, or one of the three
    POST routes under /github. *)
Lemma guard_layers b s :
  ran CsrfProtection (walk env co req (app_layers b) (start s)) →
  verb_matches "GET" (method req) = true ∨
  (method req = "POST" ∧ Path.key (path req) ∈ Path.key <$> forgery_guarded_paths).
Proof.
  intros (l & Hl & Hm)%ran_from_layer.
  destruct b; enumerate Hl;
    first [ left; by apply route_layer_verb in Hm
          | right; apply route_layer_pins in Hm as [Hv ->]; [|done];
            split; [by apply verb_matches_post|compute_done] ].
Qed.

(** X10: the anti-forgery guard is met only by GET, HEAD and POST
    requests; it lets every GET and HEAD request through in every
    configuration; the only requests it ever fails are POST requests to
    /github/setup, /github/configuration and /github/subscription outside
    the test configuration, and it fails them with its own error. *)
Theorem guard_fails_only_github_posts (s : Session) :
  let r := dispatch env co req s in
  (ran CsrfProtection r → method req ∈ ["GET"; "HEAD"; "POST"]) ∧
  (∀ ev, ev ∈ trace r → ev_actor ev = Handler CsrfProtection → ev_signal ev ≠ Next →
     method req = "POST" ∧
     NODE_ENV env ≠ Some "test" ∧
     Path.key (path req) ∈ Path.key <$> forgery_guarded_paths ∧
     ev_signal ev = NextErr (invalidCsrfToken co)).
Proof.
  cbn zeta. unfold dispatch, app_stack. generalize (boom_enabled env) as b. intros b.
  split.
  - intros [[-> | ->]%verb_matches_get | [-> _]]%guard_layers; compute_done.
  - intros [actor sg] Hev Hactor Hsg. cbn in Hactor, Hsg. subst actor.
    assert (ran CsrfProtection (walk env co req (app_layers b) (start s))) as Hran.
    { unfold ran, actors. apply list_elem_of_fmap. eexists. split; [|exact Hev]. done. }
    apply walk_sound in Hev as [Hev|Hev]; [by apply elem_of_nil in Hev|].
    red in Hev. cbn in Hev. destruct Hev as [s' ->].
    apply guard_layers in Hran as [Hget|[Hpost Hkey]].
    { apply (csrf_exempt_get env) in Hget.
      by rewrite csrfProtection_exempt in Hsg. }
    split; [done|].
    destruct (decide (NODE_ENV env = Some "test")) as [Htest|Htest].
    { rewrite csrfProtection_exempt in Hsg; [done|].
      unfold csrf_exempt. rewrite ignoreMethods_test, Hpost by done. done. }
    split; [done|]. split; [done|].
    unfold csrfProtection in *.
    destruct (csrf_exempt env (method req)); [done|].
    destruct (csrfTokenValid co req s'); done.
Qed.

End GuardReach.

Lemma guard_fails_only_github_posts_witness :
  method (Sample.request "POST" "/github/setup") = "POST" ∧
  NODE_ENV Sample.env_default ≠ Some "test" ∧
  Path.key (path (Sample.request "POST" "/github/setup"))
    ∈ Path.key <$> forgery_guarded_paths ∧
  NextErr Sample.csrf_error = NextErr (invalidCsrfToken Sample.co_pass).
Proof.
  destruct (guard_fails_only_github_posts
              Sample.env_default Sample.co_pass
              (Sample.request "POST" "/github/setup") Sample.no_session) as [_ Hfail].
  apply (Hfail {| ev_actor := Handler CsrfProtection;
                  ev_signal := NextErr Sample.csrf_error |}).
  - vm_compute. do 8 right. left.
  - reflexivity.
  - discriminate.
Defined.

(* ===================================================================== *)
(** ** The route table (lines 109-163 and 185) *)
(* ===================================================================== *)

Section RouteTable.

Lemma verbs_overlap_sound v1 v2 m :
  verb_matches v1 m = true → verb_matches v2 m = true → verbs_overlap v1 v2 = true.
Proof.
  unfold verb_matches, verbs_overlap.
  intros [H1|[H1 Hm1]%andb_prop]%orb_prop [H2|[H2 Hm2]%andb_prop]%orb_prop;
    repeat match goal with H : bool_decide _ = true |- _ => apply bool_decide_eq_true in H end;
    subst.
  - by rewrite bool_decide_eq_true_2.
  - apply orb_true_intro. right. compute_done.
  - apply orb_true_intro. right. compute_done.
  - by rewrite bool_decide_eq_true_2.
Qed.

Lemma segs_overlap_sound p1 p2 x :
  Path.seg_match p1 x = true → Path.seg_match p2 x = true → segs_overlap p1 p2 = true.
Proof.
  revert p2 x. induction p1 as [|a p1 IH]; intros [|b p2] [|c x]; cbn; try done.
  intros [Ha H1]%andb_prop [Hb H2]%andb_prop.
  rewrite (IH p2 x) by done. rewrite andb_true_r.
  unfold Path.seg_ok in Ha, Hb.
  destruct (Path.is_param a); [done|]. destruct (Path.is_param b); [done|].
  apply bool_decide_eq_true in Ha, Hb. cbn. apply bool_decide_eq_true. congruence.
Qed.

Lemma layers_overlap_sound l1 l2 req :
  is_route l1 = true → is_route l2 = true →
  layer_matches l1 req = true → layer_matches l2 req = true →
  layers_overlap l1 l2 = true.
Proof.
  destruct l1 as [|v1 p1 c1|], l2 as [|v2 p2 c2|]; try done. intros _ _.
  cbn [layer_matches layers_overlap]. unfold Path.route_matches.
  intros [Hv1 Hp1]%andb_prop [Hv2 Hp2]%andb_prop.
  rewrite (verbs_overlap_sound v1 v2 (method req)) by done.
  by rewrite (segs_overlap_sound _ _ _ Hp1 Hp2).
Qed.

Lemma apart_sound ls i j l1 l2 :
  apart ls = true → ls !! i = Some l1 → ls !! j = Some l2 → i ≠ j →
  layers_overlap l1 l2 = false.
Proof.
  revert i j. induction ls as [|l ls IH]; intros i j; [done|].
  cbn [apart]. intros [Hhead Htail]%andb_prop Hi Hj Hne.
  rewrite forallb_forall in Hhead.
  destruct i as [|i], j as [|j]; cbn in Hi, Hj; [done|..].
  - injection Hi as ->. apply list_elem_of_lookup_2, list_elem_of_In, Hhead in Hj.
    apply andb_prop in Hj as [Hj _]. by apply negb_true_iff in Hj.
  - injection Hj as ->. apply list_elem_of_lookup_2, list_elem_of_In, Hhead in Hi.
    apply andb_prop in Hi as [_ Hi]. by apply negb_true_iff in Hi.
  - apply (IH i j); [done..|]. congruence.
Qed.

Lemma app_layers_apart b : apart (app_layers b) = true.
Proof. by destruct b; vm_compute. Qed.

Lemma app_layers_disjoint b req i j l1 l2 :
  app_layers b !! i = Some l1 → app_layers b !! j = Some l2 →
  is_route l1 = true → is_route l2 = true →
  layer_matches l1 req = true → layer_matches l2 req = true →
  i = j.
Proof.
  intros Hi Hj Hr1 Hr2 Hm1 Hm2.
  destruct (decide (i = j)) as [|Hne]; [done|]. exfalso.
  pose proof (layers_overlap_sound l1 l2 req Hr1 Hr2 Hm1 Hm2) as Hyes.
  pose proof (apart_sound _ i j l1 l2 (app_layers_apart b) Hi Hj Hne) as Hno.
  congruence.
Qed.

(** X11: no request is taken by two routes of the application: of the
    layers registered with [app.get], [app.post] and [app.delete] (and
    the two OAuth routes), at most one matches the method and path of a
    request, so that the order among the routes decides nothing. *)
Theorem routes_are_disjoint (env : Env) (req : Request) (i j : nat) (l1 l2 : Layer) :
  app_stack env !! i = Some l1 → app_stack env !! j = Some l2 →
  is_route l1 = true → is_route l2 = true →
  layer_matches l1 req = true → layer_matches l2 req = true →
  i = j.
Proof. apply app_layers_disjoint. Qed.

End RouteTable.

Lemma routes_are_disjoint_witness :
  let l := Route "GET" "/github/setup"
                 [CsrfProtection; Ext CheckGithubAuth; Ext GetGitHubSetup] in
  let req := Sample.request "HEAD" "/GitHub/Setup/" in
  app_stack Sample.env_default !! 15 = Some l ∧ layer_matches l req = true ∧ 15 = 15.
Proof.
  cbn zeta. split; [reflexivity|]. split; [reflexivity|].
  apply (routes_are_disjoint
           Sample.env_default (Sample.request "HEAD" "/GitHub/Setup/") 15 15
           (Route "GET" "/github/setup"
                  [CsrfProtection; Ext CheckGithubAuth; Ext GetGitHubSetup])
           (Route "GET" "/github/setup"
                  [CsrfProtection; Ext CheckGithubAuth; Ext GetGitHubSetup]));
    reflexivity.
Defined.

(* ===================================================================== *)
(** ** The root route (lines 136-139) *)
(* ===================================================================== *)

Section RootRoute.

Variable env : Env.
Variable co : Collaborators.
Variable req : Request.

(** A reply, or a handler that neither replies nor calls [next], ends
    the run. *)
Lemma walk_settled ls s a sg :
  {| ev_actor := a; ev_signal := sg |} ∈ trace (walk env co req ls (start s)) →
  match sg with
  | Respond resp => status (walk env co req ls (start s)) = Done (Answered a resp)
  | NoReply => status (walk env co req ls (start s)) = Done (Unanswered a)
  | _ => True
  end.
Proof.
  revert a sg.
  apply (walk_inv env co req
           (λ r, ∀ a sg, {| ev_actor := a; ev_signal := sg |} ∈ trace r →
                   match sg with
                   | Respond resp => status r = Done (Answered a resp)
                   | NoReply => status r = Done (Unanswered a)
                   | _ => True
                   end)).
  - intros a sg Hin. by apply elem_of_nil in Hin.
  - intros l h r' _ _ _ Hst IH a sg. cbn [record trace status].
    rewrite elem_of_app. intros [Hin|Hin].
    + specialize (IH a sg Hin). destruct sg; try done; congruence.
    + apply list_elem_of_singleton in Hin. injection Hin as -> ->.
      by destruct (run_handler env co h req (session r')).1.
  - intros h e r' _ Hst IH a sg. cbn [record trace status].
    rewrite elem_of_app. intros [Hin|Hin].
    + specialize (IH a sg Hin). destruct sg; try done; congruence.
    + apply list_elem_of_singleton in Hin. injection Hin as -> ->.
      by destruct (run_err_handler env co h e req (session r')).1.
  - intros l e r' _ _ Hst IH a sg Hin. specialize (IH a sg Hin).
    destruct sg; try done; congruence.
Qed.

(** X13: the handler of the root route runs only for a GET or HEAD of
    the path /, and never calls [next()]: when the GitHub client reports
    the URL of the app, the request is answered with a redirect to it;
    when that call is rejected, the handler sends nothing: the request is
    left without a reply, or the rejection goes down the error path of the
    application, as the platform has it. *)
Theorem root_redirects_or_rejects (s : Session) :
  ran RootRedirect (dispatch env co req s) →
  method req ∈ ["GET"; "HEAD"] ∧
  Path.key (path req) = Path.key "/" ∧
  ((∃ url s', appExternalUrl co req s' = inr url ∧
              outcome env co req s = Answered (Handler RootRedirect) (Redirect url)) ∨
   (∃ e s', appExternalUrl co req s' = inl e ∧
            if rejectionsReachNext co
            then {| ev_actor := Handler RootRedirect; ev_signal := NextErr e |}
                   ∈ trace (dispatch env co req s)
            else outcome env co req s = Unanswered (Handler RootRedirect))) ∧
  (∀ ev, ev ∈ trace (dispatch env co req s) →
         ev_actor ev = Handler RootRedirect → ev_signal ev ≠ Next).
Proof.
  intros Hran.
  assert (∀ ev, ev ∈ trace (dispatch env co req s) →
                ev_actor ev = Handler RootRedirect → ev_signal ev ≠ Next) as Hnever.
  { intros ev [Hev|Hev]%walk_sound Hactor; [by apply elem_of_nil in Hev|].
    red in Hev. rewrite Hactor in Hev. destruct Hev as [s' ->].
    cbn [run_handler]. unfold rootRedirect. by repeat case_match. }
  assert (verb_matches "GET" (method req) = true ∧ Path.key (path req) = Path.key "/")
    as [Hverb Hkey].
  { unfold dispatch, app_stack in Hran. revert Hran.
    generalize (boom_enabled env) as b. intros b (l & Hl & Hm)%ran_from_layer.
    destruct b; enumerate Hl; by apply route_layer_pins in Hm. }
  split; [apply verb_matches_get in Hverb as [-> | ->]; compute_done|].
  split; [done|]. split; [|done].
  apply ran_event in Hran as (i & sg & Hi). apply list_elem_of_lookup_2 in Hi.
  pose proof (walk_settled _ _ _ _ Hi) as Hend.
  apply walk_sound in Hi as Hsound. destruct Hsound as [Hnil|Hsound];
    [by apply elem_of_nil in Hnil|].
  red in Hsound. cbn in Hsound. destruct Hsound as [s' Hsg].
  unfold outcome, finish. fold (dispatch env co req s) in Hend.
  unfold rootRedirect in Hsg.
  destruct (appExternalUrl co req s') as [e|url] eqn:Hurl; cbn [fst] in Hsg; subst sg.
  - right. exists e, s'. split; [done|].
    destruct (rejectionsReachNext co); [done|]. by rewrite Hend.
  - left. exists url, s'. split; [done|]. by rewrite Hend.
Qed.

End RootRoute.

Lemma root_redirects_or_rejects_witness :
  method (Sample.request "GET" "/") ∈ ["GET"; "HEAD"] ∧
  outcome Sample.env_default Sample.co_pass (Sample.request "GET" "/") Sample.no_session
    = Answered (Handler RootRedirect) (Redirect "https://github.com/apps/jira").
Proof.
  destruct (root_redirects_or_rejects
              Sample.env_default Sample.co_pass (Sample.request "GET" "/")
              Sample.no_session) as (Hm & _ & _).
  - vm_compute. do 8 right. left.
  - split; [exact Hm|reflexivity].
Defined.

(* ===================================================================== *)
(** ** The helpers together (lines 85-86) *)
(* ===================================================================== *)

Section LowerCase.

Lemma lower_ascii_not_upper c : is_upper (Path.lower_ascii c) = false.
Proof. by destruct c as [[] [] [] [] [] [] [] []]. Qed.

Lemma lower_ascii_idem c : Path.lower_ascii (Path.lower_ascii c) = Path.lower_ascii c.
Proof. by destruct c as [[] [] [] [] [] [] [] []]. Qed.

Lemma lower_ascii_hyphen c :
  Path.lower_ascii (if bool_decide (c = " "%char) then "-"%char else c)
    = if bool_decide (Path.lower_ascii c = " "%char) then "-"%char else Path.lower_ascii c.
Proof. by destruct c as [[] [] [] [] [] [] [] []]. Qed.

Lemma lower_ascii_range c :
  (N_of_ascii c <? 128)%N = true → (N_of_ascii (Path.lower_ascii c) <? 128)%N = true.
Proof. by destruct c as [[] [] [] [] [] [] [] []]. Qed.

(** X14: on ASCII text, the helper [toLowerCase] keeps the length,
    leaves no upper-case letter, is idempotent, yields ASCII text, and
    commutes with [replaceSpaceWithHyphen]: a label can be lower-cased and
    hyphenated in either order. *)
Theorem toLowerCase_spec (str : string) :
  ascii_text str = true →
  String.length (toLowerCase str) = String.length str ∧
  (∀ i c, String.get i (toLowerCase str) = Some c → is_upper c = false) ∧
  toLowerCase (toLowerCase str) = toLowerCase str ∧
  ascii_text (toLowerCase str) = true ∧
  toLowerCase (replaceSpaceWithHyphen str) = replaceSpaceWithHyphen (toLowerCase str).
Proof.
  unfold toLowerCase. induction str as [|c rest IH]; cbn.
  - intros _. repeat split; done.
  - intros [Hc Hrest]%andb_prop.
    destruct (IH Hrest) as (Hlen & Hup & Hidem & Hascii & Hcomm).
    rewrite Hlen, Hidem, Hascii, Hcomm, lower_ascii_idem, lower_ascii_hyphen,
      lower_ascii_range by done.
    repeat split; try done.
    intros [|i] c'; cbn; [|apply Hup]. intros [= <-]. apply lower_ascii_not_upper.
Qed.

End LowerCase.

Lemma toLowerCase_spec_witness :
  toLowerCase (replaceSpaceWithHyphen "In Progress")
    = replaceSpaceWithHyphen (toLowerCase "In Progress").
Proof.
  apply (toLowerCase_spec "In Progress"). reflexivity.
Defined.

(* ===================================================================== *)
(** ** One route, one trust check (lines 113-134) *)
(* ===================================================================== *)

Section OneRoute.

Variable env : Env.
Variable co : Collaborators.
Variable req : Request.

Lemma route_handlers_in_routes_only b :
  Forall (λ h, ∀ l, l ∈ layers_with h (app_layers b) → is_route l = true)
         (handlers_of (route_layers (app_layers b))).
Proof.
  apply Forall_forall. intros h Hh l Hl.
  destruct b; enumerate Hh; by enumerate Hl.
Qed.

Lemma guards_once b :
  Forall (λ l, ∀ g1 g2, g1 ∈ trust_guards → g2 ∈ trust_guards →
               g1 ∈ layer_handlers l → g2 ∈ layer_handlers l → g1 = g2)
         (route_layers (app_layers b)).
Proof.
  apply Forall_forall. intros l Hl g1 g2 Hg1 Hg2 Hin1 Hin2.
  destruct b; enumerate Hl; enumerate Hg1; enumerate Hg2; try done;
    exfalso; revert Hin1 Hin2; compute_done.
Qed.

(** X15: in a run of the application the handlers of at most one route
    run: any two handlers of routes that ran stand in the chain of one
    and the same route, which matches the request; hence a request never
    passes the checks of two different trust domains. *)
Theorem one_route_per_request (s : Session) (h1 h2 : HandlerId) :
  let routes_of := route_layers (app_stack env) in
  h1 ∈ handlers_of routes_of → h2 ∈ handlers_of routes_of →
  ran h1 (dispatch env co req s) → ran h2 (dispatch env co req s) →
  (∃ l, l ∈ routes_of ∧ layer_matches l req = true ∧
        h1 ∈ layer_handlers l ∧ h2 ∈ layer_handlers l) ∧
  (h1 ∈ trust_guards → h2 ∈ trust_guards → h1 = h2).
Proof.
  cbn zeta. unfold dispatch, app_stack. generalize (boom_enabled env) as b.
  intros b Hh1 Hh2 (l1 & Hl1 & Hm1)%ran_from_layer (l2 & Hl2 & Hm2)%ran_from_layer.
  pose proof (route_handlers_in_routes_only b) as Honly. rewrite Forall_forall in Honly.
  pose proof (Honly h1 Hh1 l1 Hl1) as Hr1. pose proof (Honly h2 Hh2 l2 Hl2) as Hr2.
  apply list_elem_of_filter in Hl1 as [Hin1 Hl1]. apply list_elem_of_filter in Hl2 as [Hin2 Hl2].
  apply list_elem_of_lookup in Hl1 as [i Hi]. apply list_elem_of_lookup in Hl2 as [j Hj].
  assert (i = j) as <- by (by apply (app_layers_disjoint b req i j l1 l2)).
  assert (l2 = l1) as -> by congruence.
  assert (l1 ∈ route_layers (app_layers b)) as Hroute.
  { apply list_elem_of_filter. split; [done|]. by eapply list_elem_of_lookup_2. }
  split; [exists l1; repeat split; done|].
  intros Hg1 Hg2. pose proof (guards_once b) as Honce. rewrite Forall_forall in Honce.
  by apply (Honce l1 Hroute).
Qed.

Lemma event_paths_meet_no_browser_guard b s g p :
  g ∈ browser_guards → p ∈ event_paths →
  method req = "POST" → Path.route_matches p (path req) = true →
  ¬ ran g (walk env co req (app_layers b) (start s)).
Proof.
  intros Hg Hp Hm Hpath (l & Hl & Hmatch)%ran_from_layer.
  enumerate Hg; enumerate Hp;
    (apply PathFacts.route_matches_key in Hpath; [|done]);
    destruct b; enumerate Hl;
    cbn [layer_matches] in Hmatch; apply andb_prop in Hmatch as [Hv Hp'];
    rewrite Hm in Hv;
    first [ by vm_compute in Hv
          | (apply PathFacts.route_matches_key in Hp'; [|done]);
            rewrite Hpath in Hp'; by vm_compute in Hp' ].
Qed.

(** X16: a lifecycle webhook - a POST to one of the four event paths -
    meets none of the checks made for browser requests: neither the
    anti-forgery guard nor the OAuth guard nor the tracker-token verifier
    runs for it. *)
Theorem webhooks_meet_no_browser_guard (s : Session) (g : HandlerId) (p : string) :
  g ∈ browser_guards → p ∈ event_paths →
  method req = "POST" → Path.route_matches p (path req) = true →
  ¬ ran g (dispatch env co req s).
Proof. intros. by eapply event_paths_meet_no_browser_guard. Qed.

End OneRoute.

Lemma one_route_per_request_witness :
  ∃ l, l ∈ route_layers (app_stack Sample.env_default) ∧
       layer_matches l (Sample.request "POST" "/jira/events/enabled") = true ∧
       Ext JiraAuthenticate ∈ layer_handlers l ∧ Ext PostJiraEnable ∈ layer_handlers l.
Proof.
  apply (one_route_per_request
           Sample.env_default Sample.co_pass (Sample.request "POST" "/jira/events/enabled")
           Sample.no_session (Ext JiraAuthenticate) (Ext PostJiraEnable)).
  - vm_compute. do 27 right. left.
  - vm_compute. do 30 right. left.
  - vm_compute. do 8 right. left.
  - vm_compute. do 9 right. left.
Defined.

Lemma webhooks_meet_no_browser_guard_witness :
  ¬ ran CsrfProtection
      (dispatch Sample.env_default Sample.co_pass
                (Sample.request "POST" "/jira/events/installed") Sample.no_session).
Proof.
  apply (webhooks_meet_no_browser_guard
           Sample.env_default Sample.co_pass
           (Sample.request "POST" "/jira/events/installed") Sample.no_session
           CsrfProtection "/jira/events/installed").
  - left.
  - do 2 right. left.
  - reflexivity.
  - reflexivity.
Defined.

(* ===================================================================== *)
(** ** Who reports a failure (lines 165-186) *)
(* ===================================================================== *)

Section Reporting.

Variable env : Env.
Variable co : Collaborators.
Variable req : Request.

(** Through layers that handle no errors, whatever is not a call of
    [next()] is the last thing that happens. *)
Lemma normal_walk_last ls r0 (i : nat) a sg :
  forallb is_normal ls = true → (length (trace r0) ≤ i)%nat →
  trace (walk env co req ls r0) !! i = Some {| ev_actor := a; ev_signal := sg |} →
  sg ≠ Next →
  S i = length (trace (walk env co req ls r0)) ∧
  status (walk env co req ls r0) = after a sg.
Proof.
  intros Hnormal Hle. revert i a sg Hle.
  apply (walk_inv env co req
           (λ r, ∀ (i : nat) a sg, (length (trace r0) ≤ i)%nat →
                   trace r !! i = Some {| ev_actor := a; ev_signal := sg |} →
                   sg ≠ Next → S i = length (trace r) ∧ status r = after a sg)).
  - intros i a sg Hle Hi. apply lookup_lt_Some in Hi. lia.
  - intros l h r' _ _ _ Hst IH i a sg Hle. cbn [record trace status].
    intros [Hi|[Hlen Hi]]%lookup_app_Some Hsg.
    + destruct (IH i a sg Hle Hi Hsg) as [_ Hafter]. rewrite Hst in Hafter.
      by destruct sg.
    + destruct (i - length (trace r')) as [|k] eqn:Hk; [|done]. cbn in Hi.
      injection Hi as <- <-. rewrite length_app. cbn. split; [lia|done].
  - intros h e r' Hin. rewrite forallb_forall in Hnormal.
    apply list_elem_of_In, Hnormal in Hin. done.
  - intros l e r' _ _ Hst IH i a sg Hle Hi Hsg. cbn [raise trace] in Hi.
    destruct (IH i a sg Hle Hi Hsg) as [_ Hafter]. rewrite Hst in Hafter.
    by destruct sg.
Qed.

Lemma route_handlers_not_late b :
  Forall (λ h, h ∉ handlers_of error_tail) (handlers_of (normal_layers b)).
Proof. destruct b; compute_done. Qed.

(** X17: a failure raised by any handler registered ahead of the
    reporters - a global middleware or the handler of a route - is passed
    to [addSentryContext] next, unchanged, and then to Sentry's error
    handler, before anything else happens. *)
Theorem failures_pass_the_reporters_first (s : Session) (h : HandlerId) (e : Err) (i : nat) :
  h ∈ handlers_of (normal_layers (boom_enabled env)) →
  trace (dispatch env co req s) !! i
    = Some {| ev_actor := Handler h; ev_signal := NextErr e |} →
  trace (dispatch env co req s) !! S i
    = Some {| ev_actor := ErrHandler AddSentryContext; ev_signal := NextErr e |} ∧
  ∃ sg, trace (dispatch env co req s) !! S (S i)
        = Some {| ev_actor := ErrHandler SentryErrorHandler; ev_signal := sg |}.
Proof.
  unfold dispatch, app_stack. generalize (boom_enabled env) as b. intros b Hh.
  rewrite app_layers_split, walk_app.
  set (rN := walk env co req (normal_layers b) (start s)).
  pose proof (route_handlers_not_late b) as Hlate. rewrite Forall_forall in Hlate.
  destruct (walk_trace_ext env co req error_tail rN) as (evs & Htr & Hfrom).
  intros Hi. rewrite Htr in Hi. apply lookup_app_Some in Hi as [Hi|[_ Hi]].
  2:{ apply list_elem_of_lookup_2, Hfrom, from_layers_handlers in Hi.
      by destruct (Hlate h Hh). }
  destruct (normal_walk_last _ (start s) i _ _ (normal_layers_normal b) (Nat.le_0_l _) Hi)
    as [Hlen Hst]; [done|]. fold rN in Hlen, Hst. cbn [after] in Hst.
  unfold error_tail, reporters. cbn [app]. rewrite !walk_cons.
  set (r1 := step env co req rN (UseErr AddSentryContext)).
  set (r2 := step env co req r1 (UseErr SentryErrorHandler)).
  assert (trace r1 = trace rN ++ [{| ev_actor := ErrHandler AddSentryContext;
                                     ev_signal := NextErr e |}] ∧
          status r1 = Going (Failing e)) as [Htr1 Hst1].
  { unfold r1, step. by rewrite Hst. }
  assert (∃ sg, trace r2 = trace r1 ++ [{| ev_actor := ErrHandler SentryErrorHandler;
                                            ev_signal := sg |}]) as [sg Htr2].
  { unfold r2, step. rewrite Hst1. eexists. reflexivity. }
  destruct (walk_trace_ext env co req (oauth_routes ++ [UseErr CatchErrors]) r2)
    as (rest & -> & _).
  rewrite Htr2, Htr1, <- !app_assoc. cbn [app]. split.
  - rewrite lookup_app_r by lia. by replace (S i - length (trace rN)) with 0 by lia.
  - exists sg. rewrite lookup_app_r by lia.
    by replace (S (S i) - length (trace rN)) with 1 by lia.
Qed.

Lemma catchErrors_session e s : (catchErrors env co e req s).2 = s.
Proof. unfold catchErrors. by repeat case_match. Qed.

(** X18: whatever routes [oauth.addRoutes(app)] registers, they are
    registered behind the two reporters and ahead of the central handler
    only: a failure raised by a handler of such a route is handed to
    [catchErrors] next, with which the run ends, and neither
    [addSentryContext] nor Sentry's error handler runs at or after the
    failure: it is not reported. *)
Theorem late_routes_bypass_the_reporters
    (added : list Layer) (s : Session) (h : HandlerId) (e : Err) (i : nat) :
  let b := boom_enabled env in
  let r := walk env co req (app_layers_with added b) (start s) in
  forallb is_normal added = true →
  h ∈ handlers_of added → h ∉ handlers_of (normal_layers b) →
  trace r !! i = Some {| ev_actor := Handler h; ev_signal := NextErr e |} →
  trace r !! S i = Some {| ev_actor := ErrHandler CatchErrors;
                           ev_signal := (catchErrors env co e req (session r)).1 |} ∧
  length (trace r) = S (S i) ∧
  status r = after (ErrHandler CatchErrors) (catchErrors env co e req (session r)).1 ∧
  (∀ j ev, trace r !! j = Some ev → ev_actor ev ∈ reporting → j < i) ∧
  app_stack env = app_layers_with oauth_routes b.
Proof.
  cbn zeta. unfold app_stack. generalize (boom_enabled env) as b.
  intros b Hnormal Hh Hfresh. unfold app_layers_with.
  rewrite (app_assoc (normal_layers b)).
  rewrite (walk_app _ _ _ (normal_layers b ++ reporters)).
  rewrite (walk_app _ _ _ added [UseErr CatchErrors]).
  set (rB := walk env co req (normal_layers b ++ reporters) (start s)).
  destruct (walk_trace_ext env co req (normal_layers b ++ reporters) (start s))
    as (evsB & HB & HfromB). fold rB in HB. cbn [start trace app] in HB.
  set (rO := walk env co req added rB).
  destruct (walk_trace_ext env co req [UseErr CatchErrors] rO) as (evsC & HC & HfromC).
  intros Hi.
  assert (trace rO !! i = Some {| ev_actor := Handler h; ev_signal := NextErr e |}) as HiO.
  { rewrite HC in Hi. apply lookup_app_Some in Hi as [Hi|[_ Hi]]; [done|].
    apply list_elem_of_lookup_2, HfromC in Hi. destruct Hi as (l & Hl & Hin & _).
    apply list_elem_of_singleton in Hl. subst l. by apply elem_of_nil in Hin. }
  assert (length (trace rB) ≤ i)%nat as Hle.
  { destruct (decide (length (trace rB) ≤ i)%nat) as [|Hlt]; [done|]. exfalso.
    destruct (walk_trace_ext env co req added rB) as (evsO & HO & _). fold rO in HO.
    rewrite HO, lookup_app_l in HiO by lia. rewrite HB in HiO.
    apply list_elem_of_lookup_2, HfromB, from_layers_handlers in HiO.
    unfold handlers_of in HiO. rewrite bind_app in HiO.
    apply elem_of_app in HiO as [HiO|HiO]; [done|]. by apply elem_of_nil in HiO. }
  destruct (normal_walk_last added rB i _ _ Hnormal Hle HiO) as [Hlen Hst]; [done|].
  fold rO in Hlen, Hst. cbn [after] in Hst.
  assert (walk env co req [UseErr CatchErrors] rO
            = record (ErrHandler CatchErrors) (catchErrors env co e req (session rO)) rO)
    as Hlast.
  { unfold walk. cbn [fold_left]. by rewrite (step_failing _ _ _ _ _ e). }
  rewrite Hlast. clear Hi HC HfromC evsC.
  cbn [record trace status session]. rewrite catchErrors_session.
  split; [|split; [|split; [|split]]].
  - rewrite lookup_app_r by lia. by replace (S i - length (trace rO)) with 0 by lia.
  - rewrite length_app. cbn. lia.
  - done.
  - intros j ev Hj Hrep. apply lookup_lt_Some in Hj as Hlt.
    rewrite length_app in Hlt. cbn in Hlt.
    destruct (decide (j < i)) as [|Hge]; [done|]. exfalso.
    destruct (decide (j = i)) as [->|Hne].
    + rewrite lookup_app_l in Hj by lia. rewrite HiO in Hj. injection Hj as <-.
      revert Hrep. compute_done.
    + rewrite lookup_app_r in Hj by lia.
      replace (j - length (trace rO)) with 0 in Hj by lia. injection Hj as <-.
      revert Hrep. compute_done.
  - by destruct b.
Qed.

End Reporting.

Lemma failures_pass_the_reporters_first_witness :
  trace (dispatch Sample.env_default Sample.co_rejecting
                  (Sample.request "POST" "/jira/sync") Sample.no_session) !! 9
    = Some {| ev_actor := ErrHandler AddSentryContext;
              ev_signal := NextErr Sample.unauthorized |}.
Proof.
  apply (failures_pass_the_reporters_first
           Sample.env_default Sample.co_rejecting (Sample.request "POST" "/jira/sync")
           Sample.no_session (Ext VerifyJiraMiddleware) Sample.unauthorized 8).
  - vm_compute. do 34 right. left.
  - reflexivity.
Defined.

Lemma late_routes_bypass_the_reporters_witness :
  let t := trace (dispatch Sample.env_default co_login_failing
                           (Sample.request "GET" "/github/login") Sample.no_session) in
  t !! 8 = Some {| ev_actor := Handler (Ext OAuthLogin);
                   ev_signal := NextErr Sample.unauthorized |} ∧
  t !! 9 = Some {| ev_actor := ErrHandler CatchErrors;
                   ev_signal := Respond (Render 401 "github-error.hbs"
                                                "GitHub + Jira integration") |} ∧
  length t = 10.
Proof.
  cbn zeta. split; [reflexivity|].
  destruct (late_routes_bypass_the_reporters
              Sample.env_default co_login_failing (Sample.request "GET" "/github/login")
              oauth_routes Sample.no_session (Ext OAuthLogin) Sample.unauthorized 8)
    as (Hnext & Hlen & _).
  - reflexivity.
  - left.
  - vm_compute. intros Hin.
    repeat (inversion Hin as [|? ? ? Hin']; clear Hin; rename Hin' into Hin).
  - reflexivity.
  - split; [exact Hnext|exact Hlen].
Defined.

(* ===================================================================== *)
(** ** A parameter that does not decode (line 122) *)
(* ===================================================================== *)

Section Undecodable.

Variable env : Env.
Variable co : Collaborators.
Variable req : Request.

(** An error in flight stays in flight, unchanged, through reporters
    that pass it on. *)
Lemma walk_failing_stays ls r e :
  forwards_errors co → UseErr CatchErrors ∉ ls → status r = Going (Failing e) →
  status (walk env co req ls r) = Going (Failing e).
Proof.
  intros Hfw Hls Hst.
  apply (walk_inv env co req (λ r', status r' = Going (Failing e))); [done|..].
  - intros l h r' _ _ _ Hn Hf. congruence.
  - intros h e' r' Hh Hf' Hf. rewrite Hf in Hf'. injection Hf' as <-.
    cbn [record status]. destruct h; cbn [run_err_handler].
    + done.
    + by rewrite Hfw.
    + by destruct Hls.
  - intros l e' r' _ _ Hn Hf. congruence.
Qed.

Lemma app_layers_subscriptions b :
  app_layers b
    = ahead_of_subscriptions ++ subscriptions_route :: behind_subscriptions b
        ++ [UseErr CatchErrors].
Proof. by destruct b. Qed.

Lemma subscriptions_handler_once b :
  (Ext GetGitHubSubscriptions ∉ handlers_of ahead_of_subscriptions) ∧
  (Ext GetGitHubSubscriptions
     ∉ handlers_of (behind_subscriptions b ++ [UseErr CatchErrors])) ∧
  (UseErr CatchErrors ∉ behind_subscriptions b).
Proof. destruct b; repeat split; compute_done. Qed.

Lemma decode_error_unknown val :
  kind_of (decode_error val) = Unknown ∧
  message (decode_error val) ∉ object_prototype_names.
Proof.
  split; [done|]. cbn. intros Hin.
  repeat (apply elem_of_cons in Hin as [Hin|Hin]; [discriminate Hin|]).
  by apply elem_of_nil in Hin.
Qed.

(** X19: a request for the subscriptions of an installation whose
    identifier [decodeURIComponent] does not accept is failed by the
    router when it comes to the route of line 122, whatever its method:
    neither the anti-forgery guard nor the handler of the route runs
    there, the handler runs nowhere else, and (Sentry's handler passing
    errors on) the request ends with the error page under status 400
    outside development mode and with Express's error leaving the stack
    in development mode. *)
Theorem undecodable_installation_is_refused (s : Session) (val : string) :
  let at_route := walk env co req ahead_of_subscriptions (start s) in
  Path.route_matches subscriptions_pattern (path req) = true →
  Path.route_params subscriptions_pattern (path req) = [val] →
  uriDecodes co val = false →
  status at_route = Going Normal →
  app_stack env
    = ahead_of_subscriptions ++ subscriptions_route
        :: behind_subscriptions (boom_enabled env) ++ [UseErr CatchErrors] ∧
  step env co req at_route subscriptions_route = raise (decode_error val) at_route ∧
  ¬ ran (Ext GetGitHubSubscriptions) (dispatch env co req s) ∧
  (forwards_errors co →
   outcome env co req s
     = if node_env_is env "development" then Uncaught (decode_error val)
       else Answered (ErrHandler CatchErrors) (error_page 400)).
Proof.
  cbn zeta. intros Hmatch Hparams Hval Hst.
  unfold outcome, dispatch, app_stack. generalize (boom_enabled env) as b. intros b.
  set (r0 := walk env co req ahead_of_subscriptions (start s)) in *.
  assert (step env co req r0 subscriptions_route = raise (decode_error val) r0) as Hstep.
  { apply step_raise; [done|]. unfold subscriptions_route. cbn [decode_failure].
    rewrite Hmatch, Hparams. cbn [find]. by rewrite Hval. }
  destruct (subscriptions_handler_once b) as (Hahead & Hbehind & Hcentral).
  split; [apply app_layers_subscriptions|]. split; [done|].
  rewrite app_layers_subscriptions, walk_app, walk_cons. fold r0. rewrite Hstep.
  split.
  - destruct (walk_trace_ext env co req ahead_of_subscriptions (start s))
      as (evsA & HA & HfromA). fold r0 in HA. cbn [start trace app] in HA.
    destruct (walk_trace_ext env co req (behind_subscriptions b ++ [UseErr CatchErrors])
                (raise (decode_error val) r0)) as (evsB & HB & HfromB).
    unfold ran, actors. rewrite HB. cbn [raise trace]. rewrite HA, fmap_app, elem_of_app.
    intros [Hran|Hran]; apply list_elem_of_fmap in Hran as (ev & Hactor & Hev).
    + apply HfromA in Hev. rewrite <- Hactor in Hev. by apply from_layers_handlers in Hev.
    + apply HfromB in Hev. rewrite <- Hactor in Hev. by apply from_layers_handlers in Hev.
  - intros Hfw. rewrite walk_app.
    set (r1 := walk env co req (behind_subscriptions b) (raise (decode_error val) r0)).
    assert (status r1 = Going (Failing (decode_error val))) as Hfail
      by (by apply walk_failing_stays).
    unfold walk. cbn [fold_left]. rewrite (step_failing _ _ _ _ _ _ Hfail).
    cbn [run_err_handler]. unfold catchErrors, finish.
    destruct (decode_error_unknown val) as [Hkind Hout].
    rewrite error_status_kind, Hkind by done.
    by destruct (node_env_is env "development").
Qed.

End Undecodable.

Lemma undecodable_installation_is_refused_witness :
  let req := Sample.request "POST" "/github/subscriptions/%E0%A4%A" in
  ¬ ran (Ext GetGitHubSubscriptions)
      (dispatch Sample.env_default Sample.co_pass req Sample.no_session) ∧
  outcome Sample.env_default Sample.co_pass req Sample.no_session
    = Answered (ErrHandler CatchErrors)
               (Render 400 "github-error.hbs" "GitHub + Jira integration").
Proof.
  cbn zeta.
  destruct (undecodable_installation_is_refused
              Sample.env_default Sample.co_pass
              (Sample.request "POST" "/github/subscriptions/%E0%A4%A")
              Sample.no_session "%E0%A4%A") as (_ & _ & Hran & Hout);
    [reflexivity..|].
  split; [exact Hran|]. apply Hout. intros e req s. reflexivity.
Defined.
